(** * Silentia calculator: break-even and resource engines, duration
      formatter and bar proportions, embedded from [calculator.js]
      and from its variant with a Calculate button (the second source
      file of the repository).

    JavaScript Numbers are modelled as exact rationals extended with
    [Infinity], [-Infinity] and [NaN]; the binary64 rounding of each
    operation and the sign of zero are not modelled.  Finite results are
    kept in lowest terms, so that two equal numbers are equal terms.

    The listeners of the two pages run on a document reduced to what
    they read and write of it (ids, three data attributes, the classes
    [info-popup] and [active]), with the state object and what the
    display functions last wrote beside it; the HTML around the numbers
    and the dispatch of events by the browser are not modelled. *)

From Stdlib Require Import ZArith QArith Qround Qreduction Qabs Qminmax.
From Stdlib Require Import String Ascii List Bool Lia Lqa.
Import ListNotations.

Local Open Scope Z_scope.

(* ================================================================== *)
(** ** JavaScript numbers *)
(* ================================================================== *)

Module JS.

Inductive number : Type :=
| Fin (q : Q)
| PosInf
| NegInf
| NaN.

Definition of_Z (z : Z) : number := Fin (inject_Z z).

(** [ToNumber] of a property read: a missing key reads [undefined], which
    arithmetic turns into [NaN]. *)
Definition of_property (o : option Q) : number :=
  match o with
  | Some q => Fin q
  | None => NaN
  end.


(** Sign of a finite value, as a comparison with zero. *)
Definition sgn (q : Q) : comparison := (q ?= 0)%Q.

Definition signed_inf (c : comparison) : number :=
  match c with
  | Eq => NaN
  | Gt => PosInf
  | Lt => NegInf
  end.

Definition neg (x : number) : number :=
  match x with
  | Fin q => Fin (Qred (- q))
  | PosInf => NegInf
  | NegInf => PosInf
  | NaN => NaN
  end.

Definition mul (a b : number) : number :=
  match a, b with
  | NaN, _ | _, NaN => NaN
  | Fin x, Fin y => Fin (Qmult' x y)
  | Fin x, PosInf | PosInf, Fin x => signed_inf (sgn x)
  | Fin x, NegInf | NegInf, Fin x => neg (signed_inf (sgn x))
  | PosInf, PosInf | NegInf, NegInf => PosInf
  | PosInf, NegInf | NegInf, PosInf => NegInf
  end.

Definition add (a b : number) : number :=
  match a, b with
  | NaN, _ | _, NaN => NaN
  | Fin x, Fin y => Fin (Qplus' x y)
  | PosInf, NegInf | NegInf, PosInf => NaN
  | PosInf, _ | _, PosInf => PosInf
  | NegInf, _ | _, NegInf => NegInf
  end.

Definition sub (a b : number) : number :=
  match a, b with
  | NaN, _ | _, NaN => NaN
  | Fin x, Fin y => Fin (Qminus' x y)
  | _, _ => add a (neg b)
  end.

(** Division.  A zero divisor is the positive zero: [x / 0] is an
    infinity of the sign of [x], and [0 / 0] is [NaN]. *)
Definition div (a b : number) : number :=
  match a, b with
  | NaN, _ | _, NaN => NaN
  | Fin x, Fin y =>
      if Qeq_bool y 0 then signed_inf (sgn x) else Fin (Qred (x / y))
  | Fin _, _ => Fin 0
  | PosInf, Fin y => match sgn y with Lt => NegInf | _ => PosInf end
  | NegInf, Fin y => match sgn y with Lt => PosInf | _ => NegInf end
  | _, _ => NaN
  end.

(** Ordering; [None] when an operand is [NaN]. *)
Definition cmp (a b : number) : option comparison :=
  match a, b with
  | NaN, _ | _, NaN => None
  | Fin x, Fin y => Some (x ?= y)%Q
  | PosInf, PosInf | NegInf, NegInf => Some Eq
  | NegInf, _ | _, PosInf => Some Lt
  | PosInf, _ | _, NegInf => Some Gt
  end.

Definition lt (a b : number) : bool :=
  match cmp a b with Some Lt => true | _ => false end.
Definition gt (a b : number) : bool :=
  match cmp a b with Some Gt => true | _ => false end.
Definition le (a b : number) : bool :=
  match cmp a b with Some Lt | Some Eq => true | _ => false end.
Definition ge (a b : number) : bool :=
  match cmp a b with Some Gt | Some Eq => true | _ => false end.
(** [===] and [!==] on numbers. *)
Definition strict_eq (a b : number) : bool :=
  match cmp a b with Some Eq => true | _ => false end.
Definition strict_neq (a b : number) : bool := negb (strict_eq a b).

Definition Math_max (a b : number) : number :=
  match cmp a b with
  | None => NaN
  | Some Lt => b
  | Some _ => a
  end.

Definition Math_abs (x : number) : number :=
  match x with
  | Fin q => Fin (Qred (Qabs q))
  | PosInf | NegInf => PosInf
  | NaN => NaN
  end.

(** [Math.round]: the nearest integer, ties towards [+Infinity]. *)
Definition round_half_up (q : Q) : Z := Qfloor (q + (1 # 2)).

Definition Math_round (x : number) : number :=
  match x with
  | Fin q => of_Z (round_half_up q)
  | _ => x
  end.

(** *** Decimal numerals *)

Definition digit (d : Z) : ascii := ascii_of_nat (48 + Z.to_nat d).

(** The [w] low decimal digits of [n], most significant first. *)
Fixpoint fixed_digits (w : nat) (n : Z) : string :=
  match w with
  | O => EmptyString
  | S k => String.append (fixed_digits k (n / 10))
                         (String (digit (n mod 10)) EmptyString)
  end.

Fixpoint strip_zeros (s : string) : string :=
  match s with
  | String c t =>
      match t with
      | EmptyString => s
      | _ => if Ascii.eqb c "0" then strip_zeros t else s
      end
  | EmptyString => s
  end.

(** The decimal numeral of a natural number, without leading zeros. *)
Definition decimal (n : Z) : string :=
  strip_zeros (fixed_digits (S (Z.to_nat (Z.log2 n))) n).

Definition sign_prefix (negative : bool) : string :=
  if negative then "-"%string else EmptyString.

(** [Number.prototype.toString] on an integer-valued number.  Every call
    in the source is on the result of [Math.round] or of [Math.max] of
    two such results; the shortest round-trip rendering of a value with
    a fractional part is not modelled (its integer part is printed). *)
Definition toString (x : number) : string :=
  match x with
  | Fin q => let n := Qfloor q in
             String.append (sign_prefix (n <? 0)) (decimal (Z.abs n))
  | PosInf => "Infinity"
  | NegInf => "-Infinity"
  | NaN => "NaN"
  end.

(** [Number.prototype.toFixed(f)] for magnitudes below [1e21]: the sign,
    then the integer [n] nearest to [|x| * 10^f] (the larger of two
    equally near), printed with [f] digits after the point.  Nearness is
    judged on the exact value: a double that only approximates a tie
    (0.015 say) may fall on the other side of it in an engine. *)
Definition toFixed (f : nat) (x : number) : string :=
  match x with
  | Fin q =>
      let n := round_half_up (Qabs q * inject_Z (10 ^ Z.of_nat f)) in
      String.append (sign_prefix (negb (Qle_bool 0 q)))
        (String.append (decimal (n / 10 ^ Z.of_nat f))
           match f with
           | O => EmptyString
           | _ => String "." (fixed_digits f (n mod 10 ^ Z.of_nat f))
           end)
  | PosInf => "Infinity"
  | NegInf => "-Infinity"
  | NaN => "NaN"
  end.

(** *** Reading numerals back *)

Definition digit_value (c : ascii) : option Z :=
  let n := nat_of_ascii c in
  if ((48 <=? n) && (n <=? 57))%nat then Some (Z.of_nat n - 48) else None.

(** Reads the longest run of digits: its value on top of [acc], how many
    digits were read on top of [cnt], and the rest of the string. *)
Fixpoint read_digits (s : string) (acc : Z) (cnt : nat) : Z * nat * string :=
  match s with
  | String c t =>
      match digit_value c with
      | Some d => read_digits t (acc * 10 + d) (S cnt)
      | None => (acc, cnt, s)
      end
  | EmptyString => (acc, cnt, s)
  end.

Definition starts_with (p s : string) : bool := String.prefix p s.

Definition read_sign (s : string) : bool * string :=
  match s with
  | String c t =>
      if Ascii.eqb c "-" then (true, t)
      else if Ascii.eqb c "+" then (false, t)
      else (false, s)
  | EmptyString => (false, s)
  end.

(** The digits after a decimal point, when there is one. *)
Definition read_fraction (s : string) : Z * nat * string :=
  match s with
  | String c t => if Ascii.eqb c "." then read_digits t 0 0 else (0, O, s)
  | EmptyString => (0, O, s)
  end.

(** The longest prefix of [s] that is a decimal literal (sign, digits,
    optional fraction, or [Infinity]) and the rest of [s]; [None] when
    no prefix is one.  Exponents and white space are not modelled. *)
Definition read_number (s : string) : option (number * string) :=
  let '(negative, s1) := read_sign s in
  if starts_with "Infinity" s1 then
    Some (if negative then NegInf else PosInf,
          substring 8 (String.length s1 - 8) s1)
  else
    let '(ip, ni, s2) := read_digits s1 0 0 in
    let '(fp, nf, s3) := read_fraction s2 in
    if (ni + nf =? 0)%nat then None
    else
      let v := (inject_Z ip + inject_Z fp / inject_Z (10 ^ Z.of_nat nf))%Q in
      Some (Fin (Qred (if negative then - v else v)), s3).

(** [parseFloat]: the value of the longest numeric prefix, else [NaN]. *)
Definition parseFloat (s : string) : number :=
  match read_number s with
  | Some (v, _) => v
  | None => NaN
  end.

(** [Number(s)] on a string: the whole string must be a numeral; the
    empty string is [0]. *)
Definition Number_of_string (s : string) : number :=
  match s with
  | EmptyString => Fin 0
  | _ => match read_number s with
         | Some (v, EmptyString) => v
         | _ => NaN
         end
  end.

(** *** [parseInt] and [||] *)

(** White space skipped by [parseInt], within the ASCII range: TAB, LF,
    VT, FF, CR and the space. *)
Definition is_white_space (c : ascii) : bool :=
  let n := nat_of_ascii c in
  (((9 <=? n) && (n <=? 13)) || (n =? 32))%nat.

Fixpoint skip_white_space (s : string) : string :=
  match s with
  | String c t => if is_white_space c then skip_white_space t else s
  | EmptyString => s
  end.

Definition hex_digit_value (c : ascii) : option Z :=
  let n := nat_of_ascii c in
  if ((48 <=? n) && (n <=? 57))%nat then Some (Z.of_nat n - 48)
  else if ((97 <=? n) && (n <=? 102))%nat then Some (Z.of_nat n - 87)
  else if ((65 <=? n) && (n <=? 70))%nat then Some (Z.of_nat n - 55)
  else None.

Fixpoint read_hex_digits (s : string) (acc : Z) (cnt : nat)
  : Z * nat * string :=
  match s with
  | String c t =>
      match hex_digit_value c with
      | Some d => read_hex_digits t (acc * 16 + d) (S cnt)
      | None => (acc, cnt, s)
      end
  | EmptyString => (acc, cnt, s)
  end.

(** The digits [parseInt] reads after the sign: hexadecimal after a
    [0x] or [0X] prefix, decimal otherwise. *)
Definition read_integer_digits (s : string) : Z * nat * string :=
  match s with
  | String c (String x t) =>
      if Ascii.eqb c "0" && (Ascii.eqb x "x" || Ascii.eqb x "X")
      then read_hex_digits t 0 0
      else read_digits s 0 0
  | _ => read_digits s 0 0
  end.

(** [parseInt(s)] without a radix: white space, sign, digits; [NaN] when
    there is no digit.  The integer read is kept exactly (an engine
    returns the nearest double). *)
Definition parseInt (s : string) : number :=
  let '(negative, s1) := read_sign (skip_white_space s) in
  let '(v, n, _) := read_integer_digits s1 in
  if (n =? 0)%nat then NaN
  else of_Z (if negative then - v else v).

(** [x || y] on numbers: [y] when [x] is [0] or [NaN]. *)
Definition or_else (x y : number) : number :=
  match x with
  | NaN => y
  | Fin q => if Qeq_bool q 0 then y else x
  | _ => x
  end.

End JS.

Import JS.


(* ================================================================== *)
(** ** State and configuration tables *)
(* ================================================================== *)

(** The application state: [state] in both files. *)
Record State : Type := mkState {
  curtainType : string;        (* 'textile' or 'disposable' *)
  cleaningFrequency : string;  (* a key of FREQUENCY_MULTIPLIER *)
  quantity : Z                 (* parseInt(value) || 0 *)
}.

(** [COSTS]. *)
Record CostTable : Type := mkCosts {
  silentiaScreen : Q;
  textileCurtain : Q;
  disposableCurtain : Q;
  textileCleaning : Q;
  disposableCleaning : Q;
  disposableReplacement : Q;
  silentiaCleaning : Q
}.

(** [ENVIRONMENTAL], with the nested objects flattened. *)
Record EnvTable : Type := mkEnv {
  textile_kWhPerCleaning : Q;
  textile_waterPerCleaning : Q;
  disposable_plasticPerUnit : Q;
  silentia_kWhPerCleaning : Q;
  silentia_waterPerCleaning : Q;
  silentia_disinfectantPerCleaning : Q;
  silentia_wipesPerCleaning : Q
}.

(** An object literal used as a table from string keys to numbers, in
    source order; a key is looked up by string equality. *)
Definition Table : Type := list (string * Q).

Fixpoint lookup (key : string) (t : Table) : option Q :=
  match t with
  | [] => None
  | (k, v) :: rest => if String.eqb key k then Some v else lookup key rest
  end.

(** The result object of [calculateROI]; [savings] and [initialDiff] are
    absent from the two early returns. *)
Record ROI : Type := mkROI {
  years : number;
  valid : bool;
  savings : option number;
  initialDiff : option number
}.

Definition is_textile (state : State) : bool :=
  String.eqb (curtainType state) "textile".

(* ================================================================== *)
(** ** ROI calculation (the same text in both files) *)
(* ================================================================== *)

Section Economics.

Variable COSTS : CostTable.
Variable FREQUENCY_MULTIPLIER : Table.

Definition calculateROI (state : State) : ROI :=
  let qty := of_Z (quantity state) in
  if le qty (Fin 0) then mkROI (Fin 0) false None None
  else
    let cleaningsPerYear :=
      of_property (lookup (cleaningFrequency state) FREQUENCY_MULTIPLIER) in
    (* Initial investment *)
    let silentiaInitial := mul qty (Fin (silentiaScreen COSTS)) in
    let curtainInitial :=
      mul qty (if is_textile state
               then Fin (textileCurtain COSTS)
               else Fin (disposableCurtain COSTS)) in
    (* Annual operating costs *)
    let silentiaAnnual :=
      mul (mul qty (Fin (silentiaCleaning COSTS))) cleaningsPerYear in
    let curtainAnnual :=
      if is_textile state
      then mul (mul qty (Fin (textileCleaning COSTS))) cleaningsPerYear
      else mul (mul qty (Fin (disposableReplacement COSTS))) cleaningsPerYear in
    let initialDifference := sub silentiaInitial curtainInitial in
    let annualSavings := sub curtainAnnual silentiaAnnual in
    if le annualSavings (Fin 0) then mkROI (Fin 999) false None None
    else
      let breakEvenYears := div initialDifference annualSavings in
      mkROI (Math_max (Fin 0) breakEvenYears) true
            (Some annualSavings) (Some initialDifference).

End Economics.

(** The two distinguished result states. *)
Definition invalid_state : ROI := mkROI (Fin 0) false None None.
Definition unreachable_state : ROI := mkROI (Fin 999) false None None.

(* ================================================================== *)
(** ** Bar proportions *)
(* ================================================================== *)

(** [d > 0 ? (v / d) * 100 : 0], the expression every bar width and
    segment share is computed with. *)
Definition percent_of (v d : number) : number :=
  if gt d (Fin 0) then mul (div v d) (Fin 100) else Fin 0.

(* ================================================================== *)
(** ** Result objects of [calculateResources] *)
(* ================================================================== *)

(** The object returned for [type: 'textile'].  [C] is the type of the
    two consumable fields: a number in [calculator.js]
    ([parseFloat(x.toFixed(2))]), a string in the second file
    ([x.toFixed(0)]). *)
Module Textile.
Record t (C : Type) : Type := mk {
  curtainKWh : string;
  curtainWater : string;
  silentiaKWh : string;
  silentiaWater : string;
  silentiaDisinfectant : C;
  silentiaWipes : C;
  savedKWh : string;
  savedWater : string
}.
Arguments mk {C}.
Arguments curtainKWh {C}.
Arguments curtainWater {C}.
Arguments silentiaKWh {C}.
Arguments silentiaWater {C}.
Arguments silentiaDisinfectant {C}.
Arguments silentiaWipes {C}.
Arguments savedKWh {C}.
Arguments savedWater {C}.
End Textile.

(** The object returned for [type: 'disposable']. *)
Module Disposable.
Record t (C : Type) : Type := mk {
  plasticWaste : string;
  silentiaDisinfectant : C;
  silentiaWipes : C;
  savedPlastic : string
}.
Arguments mk {C}.
Arguments plasticWaste {C}.
Arguments silentiaDisinfectant {C}.
Arguments silentiaWipes {C}.
Arguments savedPlastic {C}.
End Disposable.

(** The tagged union over the [type] field. *)
Inductive Resources (C : Type) : Type :=
| textile (r : Textile.t C)
| disposable (r : Disposable.t C).
Arguments textile {C}.
Arguments disposable {C}.

(* ================================================================== *)
(** ** calculator.js *)
(* ================================================================== *)

Module Calculator.

Definition SILENTIA_LIFESPAN_YEARS : number := Fin 10.

Definition COSTS : CostTable := {|
  silentiaScreen := 1310;
  textileCurtain := 800;
  disposableCurtain := 700;
  textileCleaning := 48;
  disposableCleaning := 0;
  disposableReplacement := 700;
  silentiaCleaning := 5
|}.

Definition ENVIRONMENTAL : EnvTable := {|
  textile_kWhPerCleaning := 30;
  textile_waterPerCleaning := 108;
  disposable_plasticPerUnit := 2;
  silentia_kWhPerCleaning := 0;
  silentia_waterPerCleaning := 0;
  silentia_disinfectantPerCleaning := 0.02;
  silentia_wipesPerCleaning := 0.015
|}.

Definition FREQUENCY_MULTIPLIER : Table :=
  [ ("yearly"%string, 1%Q); ("quarterly"%string, 4%Q);
    ("monthly"%string, 12%Q); ("weekly"%string, 52%Q);
    ("daily"%string, 365%Q) ].

Definition calculateROI : State -> ROI :=
  calculateROI COSTS FREQUENCY_MULTIPLIER.

Section Resources.

Variable ENV : EnvTable.
Variable FREQ : Table.

Definition calculateResources_with (state : State)
  : option (Resources number) :=
  let qty := of_Z (quantity state) in
  if le qty (Fin 0) then None
  else
    let cleaningsPerYear :=
      of_property (lookup (cleaningFrequency state) FREQ) in
    if is_textile state then
      let curtainKWh :=
        mul (mul qty (Fin (textile_kWhPerCleaning ENV))) cleaningsPerYear in
      let curtainWater :=
        mul (mul qty (Fin (textile_waterPerCleaning ENV))) cleaningsPerYear in
      let silentiaKWh :=
        mul (mul qty (Fin (silentia_kWhPerCleaning ENV))) cleaningsPerYear in
      let silentiaWater :=
        mul (mul qty (Fin (silentia_waterPerCleaning ENV))) cleaningsPerYear in
      let silentiaDisinfectant :=
        mul (mul qty (Fin (silentia_disinfectantPerCleaning ENV)))
            cleaningsPerYear in
      let silentiaWipes :=
        mul (mul qty (Fin (silentia_wipesPerCleaning ENV))) cleaningsPerYear in
      Some (textile {|
        Textile.curtainKWh := toFixed 0 curtainKWh;
        Textile.curtainWater := toFixed 0 curtainWater;
        Textile.silentiaKWh := toFixed 0 silentiaKWh;
        Textile.silentiaWater := toFixed 0 silentiaWater;
        Textile.silentiaDisinfectant :=
          parseFloat (toFixed 2 silentiaDisinfectant);
        Textile.silentiaWipes := parseFloat (toFixed 2 silentiaWipes);
        Textile.savedKWh := toFixed 0 (sub curtainKWh silentiaKWh);
        Textile.savedWater := toFixed 0 (sub curtainWater silentiaWater)
      |})
    else
      let plasticWaste :=
        mul (mul qty (Fin (disposable_plasticPerUnit ENV))) cleaningsPerYear in
      let silentiaDisinfectant :=
        mul (mul qty (Fin (silentia_disinfectantPerCleaning ENV)))
            cleaningsPerYear in
      let silentiaWipes :=
        mul (mul qty (Fin (silentia_wipesPerCleaning ENV))) cleaningsPerYear in
      Some (disposable {|
        Disposable.plasticWaste := toFixed 0 plasticWaste;
        Disposable.silentiaDisinfectant :=
          parseFloat (toFixed 2 silentiaDisinfectant);
        Disposable.silentiaWipes := parseFloat (toFixed 2 silentiaWipes);
        Disposable.savedPlastic := toFixed 0 plasticWaste
      |}).

End Resources.

Definition calculateResources : State -> option (Resources number) :=
  calculateResources_with ENVIRONMENTAL FREQUENCY_MULTIPLIER.

(** *** displayChart: the two widths computed by [createBarRow], and the
    three rows drawn (the HTML around them is left out). *)

Definition createBarRow (silentiaValue curtainValue : number)
  : number * number :=
  let maxValue := Math_max silentiaValue curtainValue in
  let silentiaWidth :=
    if gt maxValue (Fin 0)
    then mul (div silentiaValue maxValue) (Fin 100) else Fin 0 in
  let curtainWidth :=
    if gt maxValue (Fin 0)
    then mul (div curtainValue maxValue) (Fin 100) else Fin 0 in
  (silentiaWidth, curtainWidth).

Record CostChart : Type := mkCostChart {
  initialRow : number * number;
  annualRow : number * number;
  totalRow : number * number
}.

Definition displayChart (state : State) : option CostChart :=
  let qty := of_Z (quantity state) in
  if le qty (Fin 0) then None
  else
    let cleaningsPerYear :=
      of_property (lookup (cleaningFrequency state) FREQUENCY_MULTIPLIER) in
    let silentiaInitial := mul qty (Fin (silentiaScreen COSTS)) in
    let curtainInitial :=
      mul qty (if is_textile state
               then Fin (textileCurtain COSTS)
               else Fin (disposableCurtain COSTS)) in
    let silentiaAnnual :=
      mul (mul qty (Fin (silentiaCleaning COSTS))) cleaningsPerYear in
    let curtainAnnual :=
      if is_textile state
      then mul (mul qty (Fin (textileCleaning COSTS))) cleaningsPerYear
      else mul (mul qty (Fin (disposableReplacement COSTS))) cleaningsPerYear in
    let silentiaTotal :=
      add silentiaInitial (mul silentiaAnnual SILENTIA_LIFESPAN_YEARS) in
    let curtainTotal :=
      add curtainInitial (mul curtainAnnual SILENTIA_LIFESPAN_YEARS) in
    Some {| initialRow := createBarRow silentiaInitial curtainInitial;
            annualRow := createBarRow silentiaAnnual curtainAnnual;
            totalRow := createBarRow silentiaTotal curtainTotal |}.

(** *** displayResults, first half: the break-even duration shown in
    [roiElement.textContent] and [yearLabelElement.textContent]. *)

(** The day rendering (the same three statements at both places where the
    source emits days). *)
Definition show_days (years : number) : string * string :=
  let days := Math_round (mul years (Fin 365)) in
  (toString (Math_max (Fin 1) days),
   if strict_eq days (Fin 1) then "DAY"%string else "DAYS"%string).

(** The body of [else if (years < 1/12)]. *)
Definition show_weeks (years : number) : string * string :=
  let weeks := Math_round (mul years (Fin 52)) in
  if ge weeks (Fin 4) then
    let months := Math_round (mul years (Fin 12)) in
    (toString months,
     if strict_eq months (Fin 1) then "MONTH"%string else "MONTHS"%string)
  else if lt weeks (Fin 1) then show_days years
  else
    (toString weeks,
     if strict_eq weeks (Fin 1) then "WEEK"%string else "WEEKS"%string).

(** The body of [else if (years < 1)]. *)
Definition show_months (years : number) : string * string :=
  let months := Math_round (mul years (Fin 12)) in
  if ge months (Fin 12) then ("1"%string, "YEAR"%string)
  else
    (toString months,
     if strict_eq months (Fin 1) then "MONTH"%string else "MONTHS"%string).

(** The body of the final [else]. *)
Definition show_years (years : number) : string * string :=
  let roundedYears := div (Math_round (mul years (Fin 10))) (Fin 10) in
  (if lt (Math_abs (sub roundedYears (Math_round roundedYears))) (Fin 0.01)
   then toString (Math_round roundedYears)
   else toFixed 1 roundedYears,
   if gt roundedYears (Fin 1) then "YEARS"%string else "YEAR"%string).

Definition displayROI (roi : ROI) : string * string :=
  if valid roi && strict_neq (years roi) (Fin 999) then
    let years := years roi in
    if gt years SILENTIA_LIFESPAN_YEARS then ("10+"%string, "YEARS"%string)
    else if lt years (div (Fin 1) (Fin 52)) then show_days years
    else if lt years (div (Fin 1) (Fin 12)) then show_weeks years
    else if lt years (Fin 1) then show_months years
    else show_years years
  else if strict_eq (years roi) (Fin 999) then ("N/A"%string, "YEARS"%string)
  else ("--"%string, "YEAR"%string).

(** *** displayResults, second half: the widths of the stacked bars. *)

Record StackedChart : Type := mkStacked {
  curtainBarWidth : number;
  silentiaBarWidth : number;
  curtainSegments : list number;  (* energy, water; or the plastic one *)
  silentiaDisinfPct : number;
  silentiaWipesPct : number
}.

Definition stackedChart (resources : Resources number) : StackedChart :=
  match resources with
  | textile r =>
      let curtainTotal :=
        add (Number_of_string (Textile.curtainKWh r))
            (Number_of_string (Textile.curtainWater r)) in
      let silentiaTotal :=
        add (Textile.silentiaDisinfectant r) (Textile.silentiaWipes r) in
      let maxTotal := Math_max curtainTotal silentiaTotal in
      let curtainBarWidth :=
        if gt maxTotal (Fin 0)
        then mul (div curtainTotal maxTotal) (Fin 100) else Fin 0 in
      let silentiaBarWidth :=
        if gt maxTotal (Fin 0)
        then mul (div silentiaTotal maxTotal) (Fin 100) else Fin 0 in
      let curtainEnergyPct :=
        if gt curtainTotal (Fin 0)
        then mul (div (Number_of_string (Textile.curtainKWh r)) curtainTotal)
                 (Fin 100)
        else Fin 0 in
      let curtainWaterPct :=
        if gt curtainTotal (Fin 0)
        then mul (div (Number_of_string (Textile.curtainWater r)) curtainTotal)
                 (Fin 100)
        else Fin 0 in
      let silentiaDisinfPct :=
        if gt silentiaTotal (Fin 0)
        then mul (div (Textile.silentiaDisinfectant r) silentiaTotal) (Fin 100)
        else Fin 0 in
      let silentiaWipesPct :=
        if gt silentiaTotal (Fin 0)
        then mul (div (Textile.silentiaWipes r) silentiaTotal) (Fin 100)
        else Fin 0 in
      mkStacked curtainBarWidth silentiaBarWidth
                [curtainEnergyPct; curtainWaterPct]
                silentiaDisinfPct silentiaWipesPct
  | disposable r =>
      let curtainTotal := Number_of_string (Disposable.plasticWaste r) in
      let silentiaTotal :=
        add (Disposable.silentiaDisinfectant r) (Disposable.silentiaWipes r) in
      let maxTotal := Math_max curtainTotal silentiaTotal in
      let curtainBarWidth :=
        if gt maxTotal (Fin 0)
        then mul (div curtainTotal maxTotal) (Fin 100) else Fin 0 in
      let silentiaBarWidth :=
        if gt maxTotal (Fin 0)
        then mul (div silentiaTotal maxTotal) (Fin 100) else Fin 0 in
      let silentiaDisinfPct :=
        if gt silentiaTotal (Fin 0)
        then mul (div (Disposable.silentiaDisinfectant r) silentiaTotal)
                 (Fin 100)
        else Fin 0 in
      let silentiaWipesPct :=
        if gt silentiaTotal (Fin 0)
        then mul (div (Disposable.silentiaWipes r) silentiaTotal) (Fin 100)
        else Fin 0 in
      mkStacked curtainBarWidth silentiaBarWidth [Fin 100]
                silentiaDisinfPct silentiaWipesPct
  end.

(** What [displayResults] writes: the duration, its label, and the chart
    ([None] for the prompt shown when there are no resources). *)
Definition displayResults (state : State)
  : (string * string) * option StackedChart :=
  let roi := calculateROI state in
  let resources := calculateResources state in
  (displayROI roi, option_map stackedChart resources).

End Calculator.

(* ================================================================== *)
(** ** The second source file: the variant with a Calculate button *)
(* ================================================================== *)

Module Variant.

Definition SILENTIA_LIFESPAN_YEARS : number := Fin 10.

Definition COSTS : CostTable := {|
  silentiaScreen := 1310;
  textileCurtain := 800;
  disposableCurtain := 700;
  textileCleaning := 48;
  disposableCleaning := 0;
  disposableReplacement := 700;
  silentiaCleaning := 5
|}.

Definition ENVIRONMENTAL : EnvTable := {|
  textile_kWhPerCleaning := 30;
  textile_waterPerCleaning := 108;
  disposable_plasticPerUnit := 2;
  silentia_kWhPerCleaning := 0;
  silentia_waterPerCleaning := 0;
  silentia_disinfectantPerCleaning := 0.02;
  silentia_wipesPerCleaning := 1
|}.

Definition FREQUENCY_MULTIPLIER : Table :=
  [ ("yearly"%string, 1%Q); ("quarterly"%string, 4%Q);
    ("monthly"%string, 12%Q); ("weekly"%string, 52%Q) ].

Definition calculateROI : State -> ROI :=
  calculateROI COSTS FREQUENCY_MULTIPLIER.

Section Resources.

Variable ENV : EnvTable.
Variable FREQ : Table.

Definition calculateResources_with (state : State)
  : option (Resources string) :=
  let qty := of_Z (quantity state) in
  if le qty (Fin 0) then None
  else
    let cleaningsPerYear :=
      of_property (lookup (cleaningFrequency state) FREQ) in
    if is_textile state then
      let curtainKWh :=
        mul (mul qty (Fin (textile_kWhPerCleaning ENV))) cleaningsPerYear in
      let curtainWater :=
        mul (mul qty (Fin (textile_waterPerCleaning ENV))) cleaningsPerYear in
      let silentiaKWh :=
        mul (mul qty (Fin (silentia_kWhPerCleaning ENV))) cleaningsPerYear in
      let silentiaWater :=
        mul (mul qty (Fin (silentia_waterPerCleaning ENV))) cleaningsPerYear in
      let silentiaDisinfectant :=
        mul (mul qty (Fin (silentia_disinfectantPerCleaning ENV)))
            cleaningsPerYear in
      let silentiaWipes :=
        mul (mul qty (Fin (silentia_wipesPerCleaning ENV))) cleaningsPerYear in
      Some (textile {|
        Textile.curtainKWh := toFixed 0 curtainKWh;
        Textile.curtainWater := toFixed 0 curtainWater;
        Textile.silentiaKWh := toFixed 0 silentiaKWh;
        Textile.silentiaWater := toFixed 0 silentiaWater;
        Textile.silentiaDisinfectant := toFixed 0 silentiaDisinfectant;
        Textile.silentiaWipes := toFixed 0 silentiaWipes;
        Textile.savedKWh := toFixed 0 (sub curtainKWh silentiaKWh);
        Textile.savedWater := toFixed 0 (sub curtainWater silentiaWater)
      |})
    else
      let plasticWaste :=
        mul (mul qty (Fin (disposable_plasticPerUnit ENV))) cleaningsPerYear in
      let silentiaDisinfectant :=
        mul (mul qty (Fin (silentia_disinfectantPerCleaning ENV)))
            cleaningsPerYear in
      let silentiaWipes :=
        mul (mul qty (Fin (silentia_wipesPerCleaning ENV))) cleaningsPerYear in
      Some (disposable {|
        Disposable.plasticWaste := toFixed 0 plasticWaste;
        Disposable.silentiaDisinfectant := toFixed 0 silentiaDisinfectant;
        Disposable.silentiaWipes := toFixed 0 silentiaWipes;
        Disposable.savedPlastic := toFixed 0 plasticWaste
      |}).

End Resources.

Definition calculateResources : State -> option (Resources string) :=
  calculateResources_with ENVIRONMENTAL FREQUENCY_MULTIPLIER.

(** The body of [else if (years < 1/12)]: this file has no day rendering. *)
Definition show_weeks (years : number) : string * string :=
  let weeks := Math_round (mul years (Fin 52)) in
  if ge weeks (Fin 4) then
    let months := Math_round (mul years (Fin 12)) in
    (toString months,
     if strict_eq months (Fin 1) then "MONTH"%string else "MONTHS"%string)
  else
    (toString weeks,
     if strict_eq weeks (Fin 1) then "WEEK"%string else "WEEKS"%string).

Definition displayROI (roi : ROI) : string * string :=
  if valid roi && strict_neq (years roi) (Fin 999) then
    let years := years roi in
    if gt years SILENTIA_LIFESPAN_YEARS then ("10+"%string, "YEARS"%string)
    else if lt years (div (Fin 1) (Fin 12)) then show_weeks years
    else if lt years (Fin 1) then Calculator.show_months years
    else Calculator.show_years years
  else if strict_eq (years roi) (Fin 999) then ("N/A"%string, "YEARS"%string)
  else ("--"%string, "YEAR"%string).

(** What [displayResults] writes: the duration, its label, and the
    resources printed as they are ([None] for the prompt). *)
Definition displayResults (state : State)
  : (string * string) * option (Resources string) :=
  let roi := calculateROI state in
  let resources := calculateResources state in
  (displayROI roi, resources).

End Variant.

(* ================================================================== *)
(** ** The page: elements, listeners and what is on screen *)
(* ================================================================== *)

Module DOM.

(** What the listeners read and write of an element: its id, three data
    attributes, and whether its class list holds [info-popup] and
    [active]. *)
Record Element : Type := mkElement {
  elem_id : option string;
  data_type : option string;
  data_frequency : option string;
  data_popup : option string;
  info_popup : bool;
  active : bool
}.

(** The elements of the document, in document order. *)
Definition Document : Type := list Element.

Definition set_active (b : bool) (e : Element) : Element :=
  mkElement (elem_id e) (data_type e) (data_frequency e) (data_popup e)
            (info_popup e) b.

Definition classList_remove_active : Element -> Element := set_active false.
Definition classList_add_active : Element -> Element := set_active true.
Definition classList_toggle_active (e : Element) : Element :=
  set_active (negb (active e)) e.

Definition has (attribute : Element -> option string) (e : Element) : bool :=
  match attribute e with
  | Some _ => true
  | None => false
  end.

Fixpoint mapi_from {A B : Type} (i : nat) (f : nat -> A -> B) (l : list A)
  : list B :=
  match l with
  | [] => []
  | x :: rest => f i x :: mapi_from (S i) f rest
  end.

(** [querySelectorAll(selector).forEach(f)]: [f] applied, with its
    position, to every element the selector matches. *)
Definition for_each (selector : Element -> bool)
  (f : nat -> Element -> Element) (d : Document) : Document :=
  mapi_from 0 (fun i e => if selector e then f i e else e) d.

(** A method called on the element at one position. *)
Definition on_element (i : nat) (f : Element -> Element) (d : Document)
  : Document :=
  mapi_from 0 (fun j e => if (j =? i)%nat then f e else e) d.

Fixpoint find_from (i : nat) (p : Element -> bool) (d : Document)
  : option nat :=
  match d with
  | [] => None
  | e :: rest => if p e then Some i else find_from (S i) p rest
  end.

(** [document.getElementById(id)]: the position of the first element
    with that id, [None] for [null]. *)
Definition getElementById (id : string) (d : Document) : option nat :=
  find_from 0
    (fun e => match elem_id e with
              | Some x => String.eqb x id
              | None => false
              end) d.

(** *** The listeners that select a button (the same text in both
    files, up to the call of [update]) *)

(** Click on the element at [this], for the listener registered on the
    [[data-type]] elements: the new document and [state.curtainType];
    [None] when the element carries no such listener. *)
Definition select_type (this : nat) (d : Document) (state : State)
  : option (Document * State) :=
  match nth_error d this with
  | Some e =>
      match data_type e with
      | Some type =>
          let d1 :=
            for_each (has data_type) (fun _ => classList_remove_active) d in
          let d2 := on_element this classList_add_active d1 in
          Some (d2, mkState type (cleaningFrequency state) (quantity state))
      | None => None
      end
  | None => None
  end.

Definition select_frequency (this : nat) (d : Document) (state : State)
  : option (Document * State) :=
  match nth_error d this with
  | Some e =>
      match data_frequency e with
      | Some frequency =>
          let d1 :=
            for_each (has data_frequency)
                     (fun _ => classList_remove_active) d in
          let d2 := on_element this classList_add_active d1 in
          Some (d2, mkState (curtainType state) frequency (quantity state))
      | None => None
      end
  | None => None
  end.

(** [parseInt(this.value) || 0], as the number it is and as the integer
    stored in [state.quantity]. *)
Definition quantity_entered (value : string) : number :=
  or_else (parseInt value) (Fin 0).

Definition quantity_of_input (value : string) : Z :=
  match quantity_entered value with
  | Fin q => Qfloor q
  | _ => 0
  end.

Definition enter_quantity (value : string) (state : State) : State :=
  mkState (curtainType state) (cleaningFrequency state)
          (quantity_of_input value).

(** *** Info popups (calculator.js) *)

(** The outcome of a listener that may throw after it has changed the
    document. *)
Inductive Outcome : Type :=
| Returned (d : Document)
| Threw (d : Document).

Definition document_after (o : Outcome) : Document :=
  match o with
  | Returned d | Threw d => d
  end.

(** Click on an info icon whose [data-popup] is [popupId] ([None] reads
    [undefined], looked up as the id "undefined"). *)
Definition click_info_icon (popupId : option string) (d : Document)
  : Outcome :=
  let id := match popupId with
            | Some x => x
            | None => "undefined"%string
            end in
  let popup := getElementById id d in
  (* Close all other popups *)
  let d1 :=
    for_each info_popup
      (fun i p =>
         match popup with
         | Some j => if (i =? j)%nat then p else classList_remove_active p
         | None => classList_remove_active p
         end) d in
  match popup with
  | Some j => Returned (on_element j classList_toggle_active d1)
  | None => Threw d1    (* popup is null *)
  end.

(** Click anywhere else: the listener on [document]. *)
Definition click_document (d : Document) : Document :=
  for_each info_popup (fun _ => classList_remove_active) d.

End DOM.

(** *** calculator.js: live update *)

Module CalculatorPage.

Import DOM.

(** What [displayResults] and [displayChart] last wrote; [None] while
    the page still shows its initial content. *)
Definition Screen : Type :=
  option (((string * string) * option Calculator.StackedChart)
          * option Calculator.CostChart).

Record Page : Type := mkPage {
  page_document : Document;
  page_state : State;
  page_screen : Screen
}.

Definition update (p : Page) : Page :=
  if gt (of_Z (quantity (page_state p))) (Fin 0) then
    mkPage (page_document p) (page_state p)
           (Some (Calculator.displayResults (page_state p),
                  Calculator.displayChart (page_state p)))
  else p.

Definition click_type (this : nat) (p : Page) : Page :=
  match select_type this (page_document p) (page_state p) with
  | Some (d, state) => update (mkPage d state (page_screen p))
  | None => p
  end.

Definition click_frequency (this : nat) (p : Page) : Page :=
  match select_frequency this (page_document p) (page_state p) with
  | Some (d, state) => update (mkPage d state (page_screen p))
  | None => p
  end.

Definition input_quantity (value : string) (p : Page) : Page :=
  update (mkPage (page_document p)
                 (enter_quantity value (page_state p))
                 (page_screen p)).

(** The state the script starts with. *)
Definition initial_state : State := mkState "textile" "quarterly" 0.

(** The listeners the script registers, with what each run is given:
    the element clicked, the text of the field, the [data-popup] of the
    icon.  A listener that throws ends there; the page keeps what it
    had written. *)
Inductive Listener : Type :=
| Type_button (this : nat)
| Frequency_button (this : nat)
| Quantity_field (value : string)
| Info_icon (popupId : option string)
| Document_click.

Definition run_listener (l : Listener) (p : Page) : Page :=
  match l with
  | Type_button this => click_type this p
  | Frequency_button this => click_frequency this p
  | Quantity_field value => input_quantity value p
  | Info_icon popupId =>
      mkPage (document_after (click_info_icon popupId (page_document p)))
             (page_state p) (page_screen p)
  | Document_click =>
      mkPage (click_document (page_document p)) (page_state p)
             (page_screen p)
  end.

Definition run_listeners (ls : list Listener) (p : Page) : Page :=
  fold_left (fun q l => run_listener l q) ls p.

End CalculatorPage.

(** *** The second file: the Calculate button *)

Module VariantPage.

Import DOM.

Definition Screen : Type :=
  option ((string * string) * option (Resources string)).

Record Page : Type := mkPage {
  page_document : Document;
  page_state : State;
  page_screen : Screen
}.

(** The page after the click, and whether the alert was shown. *)
Definition handleCalculate (p : Page) : Page * bool :=
  if le (of_Z (quantity (page_state p))) (Fin 0) then (p, true)
  else
    (mkPage (page_document p) (page_state p)
            (Some (Variant.displayResults (page_state p))),
     false).

Definition click_type (this : nat) (p : Page) : Page :=
  match select_type this (page_document p) (page_state p) with
  | Some (d, state) => mkPage d state (page_screen p)
  | None => p
  end.

Definition click_frequency (this : nat) (p : Page) : Page :=
  match select_frequency this (page_document p) (page_state p) with
  | Some (d, state) => mkPage d state (page_screen p)
  | None => p
  end.

Definition input_quantity (value : string) (p : Page) : Page :=
  mkPage (page_document p) (enter_quantity value (page_state p))
         (page_screen p).

Definition initial_state : State := mkState "textile" "quarterly" 0.

(** The listeners this file registers; [Calculate] stands for the click
    on the button and for the Enter key in the quantity field. *)
Inductive Listener : Type :=
| Type_button (this : nat)
| Frequency_button (this : nat)
| Quantity_field (value : string)
| Calculate.

Definition run_listener (l : Listener) (p : Page) : Page :=
  match l with
  | Type_button this => click_type this p
  | Frequency_button this => click_frequency this p
  | Quantity_field value => input_quantity value p
  | Calculate => fst (handleCalculate p)
  end.

Definition run_listeners (ls : list Listener) (p : Page) : Page :=
  fold_left (fun q l => run_listener l q) ls p.

End VariantPage.

(* ================================================================== *)
(** ** Definitions used to state the properties *)
(* ================================================================== *)

(** The number whose value is [q]. *)
Definition num (q : Q) : number := Fin (Qred q).

(** *** Economics *)

Section Quantities.

Variable COSTS : CostTable.

(** Per-unit acquisition and operating cost of the curtain compared. *)
Definition curtainUnitCost (state : State) : Q :=
  if is_textile state then textileCurtain COSTS else disposableCurtain COSTS.

Definition curtainOperatingCost (state : State) : Q :=
  if is_textile state then textileCleaning COSTS
  else disposableReplacement COSTS.

Definition initialDifference_of (state : State) : Q :=
  (inject_Z (quantity state) * silentiaScreen COSTS
   - inject_Z (quantity state) * curtainUnitCost state)%Q.

Definition annualSavings_of (state : State) (f : Q) : Q :=
  (inject_Z (quantity state) * curtainOperatingCost state * f
   - inject_Z (quantity state) * silentiaCleaning COSTS * f)%Q.

End Quantities.

(** The two source files side by side. *)
Inductive SourceFile : Type :=
| calculator_js      (* src/calculator.js *)
| second_file.   (* the variant with a Calculate button *)

Definition frequency_table (src : SourceFile) : Table :=
  match src with
  | calculator_js => Calculator.FREQUENCY_MULTIPLIER
  | second_file => Variant.FREQUENCY_MULTIPLIER
  end.

Definition cost_table (src : SourceFile) : CostTable :=
  match src with
  | calculator_js => Calculator.COSTS
  | second_file => Variant.COSTS
  end.

Definition calculateROI_in (src : SourceFile) : State -> ROI :=
  match src with
  | calculator_js => Calculator.calculateROI
  | second_file => Variant.calculateROI
  end.


(** *** Proportions *)

(** The policy in the words of the specification: a percentage is 0 when
    the denominator is 0, and the magnitude divided by the denominator
    times 100 otherwise. *)
Definition percentage (magnitude denominator : Q) : number :=
  if Qeq_bool denominator 0 then Fin 0
  else num (magnitude / denominator * 100).

(** *** Numerals *)

(** A string of decimal digits only, and its value on top of [acc]. *)
Fixpoint digits_only (s : string) : bool :=
  match s with
  | EmptyString => true
  | String c t =>
      match digit_value c with
      | Some _ => digits_only t
      | None => false
      end
  end.

Fixpoint digits_value (s : string) (acc : Z) : Z :=
  match s with
  | EmptyString => acc
  | String c t =>
      match digit_value c with
      | Some d => digits_value t (acc * 10 + d)
      | None => acc
      end
  end.

(** The hundredths, thousandths, ... nearest to [x], as an integer. *)
Definition scaled (f : nat) (x : Q) : Z :=
  round_half_up (x * inject_Z (10 ^ Z.of_nat f)).

(** The decimal rendering of an integer. *)
Definition string_of_Z (n : Z) : string :=
  String.append (sign_prefix (n <? 0)) (decimal (Z.abs n)).

(** The unit label of a count. *)
Definition unit_label (n : Z) (singular plural : string) : string :=
  if n =? 1 then singular else plural.

(** *** Resources *)


(** Fixed precisions: the nearest whole unit, printed; the nearest
    hundredth, as a number. *)
Definition whole (x : Q) : string := decimal (round_half_up x).

(** *** The display of a file, and strings that are numerals *)

Definition displayROI_in (src : SourceFile) : ROI -> string * string :=
  match src with
  | calculator_js => Calculator.displayROI
  | second_file => Variant.displayROI
  end.


(** A string that reads back as a number in full, or is "NaN". *)
Definition is_numeral (s : string) : bool :=
  match read_number s with
  | Some (_, EmptyString) => true
  | _ => String.eqb s "NaN"
  end.

(** A value with one decimal, [n] being ten times it. *)
Definition one_decimal (n : Z) : string :=
  String.append (decimal (n / 10))
                (String "." (String (digit (n mod 10)) EmptyString)).

Definition singular_units : list string :=
  ["DAY"; "WEEK"; "MONTH"; "YEAR"]%string.

Definition is_singular (unit : string) : bool :=
  existsb (String.eqb unit) singular_units.

(** *** Text typed into the quantity field *)


(** *** The pages between two listener runs *)



(* ================================================================== *)
(** ** Facts about the number model *)
(* ================================================================== *)

Lemma num_eq (a b : Q) : (a == b)%Q -> num a = num b.
Proof. intros H. unfold num. f_equal. now apply Qred_complete. Qed.


Lemma le_Fin (a b : Q) : le (Fin a) (Fin b) = Qle_bool a b.
Proof.
  unfold le, cmp. destruct (Qle_bool a b) eqn:E.
  - apply Qle_bool_iff in E. rewrite Qle_alt in E.
    destruct (a ?= b)%Q; [reflexivity | reflexivity | now elim E].
  - destruct (a ?= b)%Q eqn:C; try reflexivity.
    + apply Qeq_alt in C. assert (Qle_bool a b = true) as E'.
      { apply Qle_bool_iff. rewrite C. apply Qle_refl. }
      congruence.
    + apply Qlt_alt, Qlt_le_weak, Qle_bool_iff in C. congruence.
Qed.

Lemma le_Fin_true (a b : Q) : le (Fin a) (Fin b) = true <-> (a <= b)%Q.
Proof. rewrite le_Fin. apply Qle_bool_iff. Qed.

Lemma le_Fin_false (a b : Q) : le (Fin a) (Fin b) = false <-> (b < a)%Q.
Proof.
  rewrite le_Fin. split; intros H.
  - apply Qnot_le_lt. intros L. apply Qle_bool_iff in L. congruence.
  - destruct (Qle_bool a b) eqn:E; [|reflexivity].
    apply Qle_bool_iff in E. exfalso. exact (Qlt_not_le _ _ H E).
Qed.

Lemma lt_Fin_true (a b : Q) : lt (Fin a) (Fin b) = true <-> (a < b)%Q.
Proof.
  unfold lt, cmp. rewrite Qlt_alt.
  destruct (a ?= b)%Q; split; congruence.
Qed.

Lemma lt_Fin_false (a b : Q) : lt (Fin a) (Fin b) = false <-> (b <= a)%Q.
Proof.
  split; intros H.
  - apply Qnot_lt_le. intros L. apply lt_Fin_true in L. congruence.
  - destruct (lt (Fin a) (Fin b)) eqn:E; [|reflexivity].
    apply lt_Fin_true in E. exfalso. exact (Qlt_not_le _ _ E H).
Qed.

Lemma gt_Fin_true (a b : Q) : gt (Fin a) (Fin b) = true <-> (b < a)%Q.
Proof.
  unfold gt, cmp. rewrite Qgt_alt.
  destruct (a ?= b)%Q; split; congruence.
Qed.

Lemma gt_Fin_false (a b : Q) : gt (Fin a) (Fin b) = false <-> (a <= b)%Q.
Proof.
  split; intros H.
  - apply Qnot_lt_le. intros L. apply gt_Fin_true in L. congruence.
  - destruct (gt (Fin a) (Fin b)) eqn:E; [|reflexivity].
    apply gt_Fin_true in E. exfalso. exact (Qlt_not_le _ _ E H).
Qed.

Lemma ge_Fin_true (a b : Q) : ge (Fin a) (Fin b) = true <-> (b <= a)%Q.
Proof.
  unfold ge, cmp. rewrite Qle_alt, <- (Qcompare_antisym a b).
  destruct (a ?= b)%Q; simpl; intuition discriminate.
Qed.

Lemma ge_Fin_false (a b : Q) : ge (Fin a) (Fin b) = false <-> (a < b)%Q.
Proof.
  split; intros H.
  - apply Qnot_le_lt. intros L. apply ge_Fin_true in L. congruence.
  - destruct (ge (Fin a) (Fin b)) eqn:E; [|reflexivity].
    apply ge_Fin_true in E. exfalso. exact (Qlt_not_le _ _ H E).
Qed.

Lemma strict_eq_Fin (a b : Q) : strict_eq (Fin a) (Fin b) = true <-> (a == b)%Q.
Proof.
  unfold strict_eq, cmp. rewrite Qeq_alt.
  destruct (a ?= b)%Q; split; congruence.
Qed.

Lemma Math_max_Fin (a b : Q) :
  Math_max (Fin a) (Fin b) = if Qle_bool b a then Fin a else Fin b.
Proof.
  unfold Math_max. rewrite <- le_Fin. unfold le, cmp.
  rewrite <- (Qcompare_antisym a b). destruct (a ?= b)%Q; reflexivity.
Qed.

(** Equalities between reduced rationals, up to the reductions inside. *)
Ltac qred_eq :=
  unfold num, Qmult', Qminus', Qplus';
  repeat match goal with
         | |- Some _ = Some _ => apply f_equal
         | |- Fin _ = Fin _ => apply f_equal
         | |- Math_max ?a _ = Math_max ?a _ => apply f_equal
         end;
  apply Qred_complete; rewrite ?Qred_correct;
  try reflexivity; try ring.

Lemma mul_num (z : Z) (r : Q) : mul (of_Z z) (Fin r) = num (inject_Z z * r).
Proof. unfold of_Z. cbn [mul]. qred_eq. Qed.

Lemma mul_mul_num (z : Z) (r f : Q) :
  mul (mul (of_Z z) (Fin r)) (Fin f) = num (inject_Z z * r * f).
Proof. unfold of_Z. cbn [mul]. qred_eq. Qed.

Lemma sub_num (a b : Q) : sub (num a) (num b) = num (a - b).
Proof. unfold num. cbn [sub]. qred_eq. Qed.

Lemma le_num (a b : Q) : le (num a) (Fin b) = Qle_bool a b.
Proof.
  unfold num. rewrite le_Fin.
  now rewrite (Qleb_comp _ _ (Qred_correct a) b b (Qeq_refl b)).
Qed.

Lemma div_num (a b : Q) : ~ (b == 0)%Q -> div (num a) (num b) = num (a / b).
Proof.
  intros NZ. unfold num, div.
  assert (Qeq_bool (Qred b) 0 = false) as ->.
  { destruct (Qeq_bool (Qred b) 0) eqn:E; [|reflexivity].
    apply Qeq_bool_iff in E. rewrite Qred_correct in E. contradiction. }
  qred_eq.
Qed.

(* ================================================================== *)
(** ** The break-even computation in closed form *)
(* ================================================================== *)

Section EconomicsFacts.

Variable COSTS : CostTable.
Variable FREQUENCY_MULTIPLIER : Table.

Lemma quantity_test (state : State) :
  le (of_Z (quantity state)) (Fin 0) = (quantity state <=? 0).
Proof.
  unfold of_Z. rewrite le_Fin. unfold Qle_bool. simpl.
  now rewrite Z.mul_1_r.
Qed.

Lemma calculateROI_nonpositive (state : State) :
  quantity state <= 0 ->
  calculateROI COSTS FREQUENCY_MULTIPLIER state = invalid_state.
Proof.
  intros H. unfold calculateROI. rewrite quantity_test.
  apply Z.leb_le in H. now rewrite H.
Qed.

Lemma calculateROI_closed_form (state : State) (f : Q) :
  0 < quantity state ->
  lookup (cleaningFrequency state) FREQUENCY_MULTIPLIER = Some f ->
  calculateROI COSTS FREQUENCY_MULTIPLIER state =
    if Qle_bool (annualSavings_of COSTS state f) 0 then unreachable_state
    else mkROI (Math_max (Fin 0)
                  (num (initialDifference_of COSTS state
                        / annualSavings_of COSTS state f)))
               true
               (Some (num (annualSavings_of COSTS state f)))
               (Some (num (initialDifference_of COSTS state))).
Proof.
  intros Hq Hf. unfold calculateROI. rewrite quantity_test.
  destruct (quantity state <=? 0) eqn:E; [apply Z.leb_le in E; lia|].
  rewrite Hf. cbn [of_property].
  unfold annualSavings_of, initialDifference_of, curtainOperatingCost,
    curtainUnitCost.
  destruct (is_textile state).
  all: rewrite !mul_mul_num, !mul_num, !sub_num, le_num.
  all: match goal with
       | |- context [Qle_bool ?b 0] => destruct (Qle_bool b 0) eqn:E'
       end; [reflexivity|].
  all: rewrite div_num; [reflexivity|].
  all: intros Z0; rewrite Z0 in E'; discriminate E'.
Qed.

End EconomicsFacts.

(* ================================================================== *)
(** ** The two source files side by side *)
(* ================================================================== *)

Lemma calculateROI_in_eq (src : SourceFile) (state : State) :
  calculateROI_in src state =
  calculateROI (cost_table src) (frequency_table src) state.
Proof. destruct src; reflexivity. Qed.

(** Every multiplier of the two frequency tables is at least one. *)
Lemma recognized_frequency_ge_1 (src : SourceFile) (key : string) (f : Q) :
  lookup key (frequency_table src) = Some f -> (1 <= f)%Q.
Proof.
  destruct src; cbn [frequency_table Calculator.FREQUENCY_MULTIPLIER
                     Variant.FREQUENCY_MULTIPLIER lookup].
  all: repeat match goal with
         | |- context [String.eqb ?a ?k] => destruct (String.eqb a k)
         end.
  all: intros H; try discriminate H; injection H as <-; discriminate.
Qed.

Lemma recognized_frequency_positive (src : SourceFile) (key : string) (f : Q) :
  lookup key (frequency_table src) = Some f -> (0 < f)%Q.
Proof.
  intros H. apply recognized_frequency_ge_1 in H.
  apply Qlt_le_trans with 1%Q; [reflexivity|assumption].
Qed.

Lemma Q_of_positive_quantity (z : Z) : 0 < z -> (0 < inject_Z z)%Q.
Proof. intros H. unfold Qlt. simpl. lia. Qed.

(** With the baked-in costs both differences are positive. *)
Lemma baked_in_costs_positive (src : SourceFile) (state : State) (f : Q) :
  0 < quantity state ->
  (0 < f)%Q ->
  (0 < initialDifference_of (cost_table src) state)%Q /\
  (0 < annualSavings_of (cost_table src) state f)%Q.
Proof.
  intros Hq Hf. apply Q_of_positive_quantity in Hq.
  unfold initialDifference_of, annualSavings_of, curtainUnitCost,
    curtainOperatingCost.
  set (q := inject_Z (quantity state)) in *.
  assert (0 < q * f)%Q as Hqf by (apply Qmult_lt_0_compat; assumption).
  destruct src, (is_textile state); cbn; split; lra.
Qed.

Lemma Qle_bool_false (a b : Q) : (b < a)%Q -> Qle_bool a b = false.
Proof.
  intros H. destruct (Qle_bool a b) eqn:E; [|reflexivity].
  apply Qle_bool_iff in E. exfalso. exact (Qlt_not_le _ _ H E).
Qed.

Lemma Qdiv_pos (a b : Q) : (0 < a)%Q -> (0 < b)%Q -> (0 < a / b)%Q.
Proof.
  intros Ha Hb. apply Qlt_shift_div_l; [assumption|]. now rewrite Qmult_0_l.
Qed.

Lemma Math_max_0_pos (y : Q) : (0 < y)%Q -> Math_max (Fin 0) (num y) = num y.
Proof.
  intros H. unfold num. rewrite Math_max_Fin, Qle_bool_false; [reflexivity|].
  now rewrite Qred_correct.
Qed.


(** The valid result in both files, unclamped. *)
Lemma calculateROI_in_valid (src : SourceFile) (state : State) (f : Q) :
  0 < quantity state ->
  lookup (cleaningFrequency state) (frequency_table src) = Some f ->
  calculateROI_in src state =
    mkROI (num (initialDifference_of (cost_table src) state
                / annualSavings_of (cost_table src) state f))
          true
          (Some (num (annualSavings_of (cost_table src) state f)))
          (Some (num (initialDifference_of (cost_table src) state))).
Proof.
  intros Hq Hf. rewrite calculateROI_in_eq.
  rewrite (calculateROI_closed_form _ _ _ f Hq Hf).
  pose proof (recognized_frequency_positive _ _ _ Hf) as Hpos.
  destruct (baked_in_costs_positive src state f Hq Hpos) as [HD HS].
  rewrite (Qle_bool_false _ _ HS).
  rewrite Math_max_0_pos by (apply Qdiv_pos; assumption).
  reflexivity.
Qed.

(* ================================================================== *)
(** ** Economics engine: the claims *)
(* ================================================================== *)



(** C2.  For every quantity <= 0, whatever the material and frequency, in
    both source files [calculateROI] returns the invalid state (years 0,
    valid false) and [calculateResources] returns null, which is no
    result object at all, hence different from every valid result (also
    from one whose amounts are all zero): a positive quantity always
    yields an object. *)
Theorem nonpositive_quantity_is_invalid :
  forall (state : State),
    quantity state <= 0 ->
    (forall src, calculateROI_in src state = mkROI (Fin 0) false None None) /\
    Calculator.calculateResources state = None /\
    Variant.calculateResources state = None /\
    (forall r, Calculator.calculateResources state <> Some r) /\
    (forall r, Variant.calculateResources state <> Some r) /\
    (forall valid_state : State,
        0 < quantity valid_state ->
        Calculator.calculateResources valid_state <> None /\
        Variant.calculateResources valid_state <> None).
Proof.
  intros state Hq.
  assert (Calculator.calculateResources state = None) as HC.
  { unfold Calculator.calculateResources, Calculator.calculateResources_with.
    rewrite quantity_test. apply Z.leb_le in Hq. now rewrite Hq. }
  assert (Variant.calculateResources state = None) as HE.
  { unfold Variant.calculateResources, Variant.calculateResources_with.
    rewrite quantity_test. apply Z.leb_le in Hq. now rewrite Hq. }
  refine (conj _ (conj HC (conj HE (conj _ (conj _ _))))).
  - intros src. rewrite calculateROI_in_eq.
    now apply calculateROI_nonpositive.
  - intros r. rewrite HC. discriminate.
  - intros r. rewrite HE. discriminate.
  - intros valid_state Hv.
    unfold Calculator.calculateResources, Calculator.calculateResources_with,
      Variant.calculateResources, Variant.calculateResources_with.
    rewrite quantity_test.
    destruct (quantity valid_state <=? 0) eqn:E; [apply Z.leb_le in E; lia|].
    destruct (is_textile valid_state); split; discriminate.
Qed.

Lemma nonpositive_quantity_is_invalid_witness :
  Calculator.calculateROI (mkState "textile" "quarterly" (-3)) =
    mkROI (Fin 0) false None None /\
  Calculator.calculateResources (mkState "textile" "quarterly" (-3)) = None.
Proof.
  pose proof (nonpositive_quantity_is_invalid
                (mkState "textile" "quarterly" (-3))
                ltac:(simpl; lia)) as [H1 [H2 _]].
  exact (conj (H1 calculator_js) H2).
Defined.







(* ================================================================== *)
(** ** Proportion calculator *)
(* ================================================================== *)

Lemma Math_max_Qmax (a b : Q) : Math_max (Fin a) (Fin b) = Fin (Qmax a b).
Proof.
  unfold Math_max, cmp, Qmax, GenericMinMax.gmax.
  destruct (a ?= b)%Q; reflexivity.
Qed.

(** The guarded quotient of the source computes [percentage], whichever
    representative of the denominator it is given. *)
Lemma percent_of_percentage (v d d' : Q) :
  (0 <= d)%Q -> (d' == d)%Q ->
  percent_of (Fin v) (Fin d') = percentage v d.
Proof.
  intros Hd Hdd. unfold percent_of, percentage.
  destruct (gt (Fin d') (Fin 0)) eqn:G.
  - apply gt_Fin_true in G.
    assert (Qeq_bool d 0 = false) as ->.
    { destruct (Qeq_bool d 0) eqn:E; [|reflexivity].
      apply Qeq_bool_iff in E. rewrite Hdd, E in G.
      exfalso. exact (Qlt_irrefl _ G). }
    assert (Qeq_bool d' 0 = false) as E'.
    { destruct (Qeq_bool d' 0) eqn:E; [|reflexivity].
      apply Qeq_bool_iff in E. rewrite E in G.
      exfalso. exact (Qlt_irrefl _ G). }
    unfold div. rewrite E'. cbn [mul]. qred_eq. now rewrite Hdd.
  - apply gt_Fin_false in G.
    assert (Qeq_bool d 0 = true) as ->; [|reflexivity].
    apply Qeq_bool_iff. apply Qle_antisym; [now rewrite <- Hdd|assumption].
Qed.

Lemma percentage_compat (v v' d : Q) :
  (v == v')%Q -> percentage v d = percentage v' d.
Proof.
  intros H. unfold percentage. destruct (Qeq_bool d 0); [reflexivity|].
  apply num_eq. now rewrite H.
Qed.


Lemma Qmax_nonneg (a b : Q) : (0 <= a)%Q -> (0 <= Qmax a b)%Q.
Proof. intros H. apply Qle_trans with a; [assumption|apply Q.le_max_l]. Qed.




(* ================================================================== *)
(** ** Printing a numeral and reading it back *)
(* ================================================================== *)

Lemma append_assoc (a b c : string) :
  String.append (String.append a b) c = String.append a (String.append b c).
Proof. induction a as [|x a IH]; simpl; [reflexivity|now rewrite IH]. Qed.

Lemma append_nil_r (a : string) : String.append a EmptyString = a.
Proof. induction a as [|x a IH]; simpl; [reflexivity|now rewrite IH]. Qed.

Lemma length_append (a b : string) :
  String.length (String.append a b) = (String.length a + String.length b)%nat.
Proof. induction a as [|x a IH]; simpl; [reflexivity|now rewrite IH]. Qed.

Lemma digit_value_digit (d : Z) :
  0 <= d < 10 -> digit_value (digit d) = Some d.
Proof.
  intros H.
  assert (d = 0 \/ d = 1 \/ d = 2 \/ d = 3 \/ d = 4 \/
          d = 5 \/ d = 6 \/ d = 7 \/ d = 8 \/ d = 9) as C by lia.
  repeat (destruct C as [->|C]; [reflexivity|]). now subst d.
Qed.

Lemma digits_only_app (a b : string) :
  digits_only a = true -> digits_only b = true ->
  digits_only (String.append a b) = true.
Proof.
  induction a as [|x a IH]; simpl; intros Ha Hb; [assumption|].
  destruct (digit_value x); [now apply IH|discriminate].
Qed.

Lemma digits_value_app (a b : string) (acc : Z) :
  digits_only a = true ->
  digits_value (String.append a b) acc = digits_value b (digits_value a acc).
Proof.
  revert acc. induction a as [|x a IH]; simpl; intros acc Ha; [reflexivity|].
  destruct (digit_value x); [now apply IH|discriminate].
Qed.

Lemma read_digits_app (s rest : string) (acc : Z) (cnt : nat) :
  digits_only s = true ->
  read_digits (String.append s rest) acc cnt =
  read_digits rest (digits_value s acc) (cnt + String.length s)%nat.
Proof.
  revert acc cnt. induction s as [|x s IH]; simpl; intros acc cnt Hs.
  - now rewrite Nat.add_0_r.
  - destruct (digit_value x); [|discriminate].
    rewrite IH by assumption. f_equal. lia.
Qed.

Lemma fixed_digits_only (w : nat) (n : Z) :
  digits_only (fixed_digits w n) = true.
Proof.
  revert n. induction w as [|w IH]; intros n; cbn [fixed_digits];
    [reflexivity|].
  apply digits_only_app; [apply IH|]. cbn [digits_only].
  rewrite digit_value_digit; [reflexivity|]. apply Z.mod_pos_bound. lia.
Qed.

Lemma fixed_digits_length (w : nat) (n : Z) :
  String.length (fixed_digits w n) = w.
Proof.
  revert n. induction w as [|w IH]; intros n; cbn [fixed_digits];
    [reflexivity|].
  rewrite length_append, IH. cbn [String.length]. lia.
Qed.

Lemma fixed_digits_value (w : nat) (n acc : Z) :
  digits_value (fixed_digits w n) acc =
  acc * 10 ^ Z.of_nat w + n mod 10 ^ Z.of_nat w.
Proof.
  revert n acc. induction w as [|w IH]; intros n acc.
  - cbn [fixed_digits digits_value Z.of_nat]. rewrite Z.pow_0_r, Z.mod_1_r. lia.
  - cbn [fixed_digits].
    rewrite digits_value_app by apply fixed_digits_only.
    rewrite IH. cbn [digits_value].
    rewrite digit_value_digit by (apply Z.mod_pos_bound; lia).
    cbn [digits_value].
    rewrite Nat2Z.inj_succ, Z.pow_succ_r by lia.
    rewrite (Z.rem_mul_r n 10 (10 ^ Z.of_nat w)) by lia.
    ring.
Qed.

Lemma strip_zeros_value (s : string) :
  digits_value (strip_zeros s) 0 = digits_value s 0.
Proof.
  induction s as [|x s IH]; [reflexivity|].
  cbn [strip_zeros]. destruct s as [|y s']; [reflexivity|].
  destruct (Ascii.eqb x "0") eqn:E; [|reflexivity].
  apply Ascii.eqb_eq in E. subst x. rewrite IH. reflexivity.
Qed.

Lemma strip_zeros_only (s : string) :
  digits_only s = true -> digits_only (strip_zeros s) = true.
Proof.
  induction s as [|x s IH]; [reflexivity|].
  cbn [strip_zeros]. destruct s as [|y s']; [trivial|].
  destruct (Ascii.eqb x "0") eqn:E; [|trivial].
  intros H. apply IH. cbn [digits_only] in H.
  destruct (digit_value x); [assumption|discriminate].
Qed.

Lemma strip_zeros_nonempty (s : string) :
  s <> EmptyString -> strip_zeros s <> EmptyString.
Proof.
  induction s as [|x s IH]; [trivial|].
  intros _. cbn [strip_zeros]. destruct s as [|y s']; [discriminate|].
  destruct (Ascii.eqb x "0"); [apply IH|]; discriminate.
Qed.

Lemma decimal_only (n : Z) : digits_only (decimal n) = true.
Proof. apply strip_zeros_only, fixed_digits_only. Qed.

Lemma decimal_nonempty (n : Z) : decimal n <> EmptyString.
Proof.
  apply strip_zeros_nonempty. intros E.
  pose proof (fixed_digits_length (S (Z.to_nat (Z.log2 n))) n) as L.
  rewrite E in L. discriminate L.
Qed.

Lemma pow10_bound (n : Z) :
  0 <= n -> n < 10 ^ Z.of_nat (S (Z.to_nat (Z.log2 n))).
Proof.
  intros H. rewrite Nat2Z.inj_succ, Z2Nat.id by apply Z.log2_nonneg.
  destruct (Z.eq_dec n 0) as [->|NZ]; [reflexivity|].
  assert (n < 2 ^ Z.succ (Z.log2 n)) by (apply Z.log2_spec; lia).
  assert (2 ^ Z.succ (Z.log2 n) <= 10 ^ Z.succ (Z.log2 n)).
  { apply Z.pow_le_mono_l. lia. }
  lia.
Qed.

Lemma decimal_value (n : Z) : 0 <= n -> digits_value (decimal n) 0 = n.
Proof.
  intros H. unfold decimal. rewrite strip_zeros_value, fixed_digits_value.
  rewrite Z.mod_small; [lia|]. split; [assumption|now apply pow10_bound].
Qed.

(** A numeral starts with a digit, so it carries no sign and is not
    [Infinity]. *)
Lemma decimal_head (n : Z) :
  exists c t d, decimal n = String c t /\ digit_value c = Some d.
Proof.
  pose proof (decimal_only n) as O. pose proof (decimal_nonempty n) as NE.
  destruct (decimal n) as [|c t]; [contradiction|].
  cbn [digits_only] in O. destruct (digit_value c) as [d|] eqn:D;
    [|discriminate].
  now exists c, t, d.
Qed.

Lemma digit_is_no_sign (c : ascii) (d : Z) :
  digit_value c = Some d ->
  Ascii.eqb c "-" = false /\ Ascii.eqb c "+" = false /\
  Ascii.eqb c "." = false /\ c <> "I"%char.
Proof.
  intros H. repeat split.
  1-3: apply Ascii.eqb_neq; intros ->; discriminate H.
  intros ->. discriminate H.
Qed.

(** Reading an unsigned numeral with [f] fraction digits. *)
Lemma read_number_decimal (a m : Z) (f : nat) :
  0 <= a ->
  read_number
    (String.append (decimal a)
       match f with
       | O => EmptyString
       | _ => String "." (fixed_digits f m)
       end) =
  Some (num (inject_Z a
             + inject_Z (m mod 10 ^ Z.of_nat f) / inject_Z (10 ^ Z.of_nat f)),
        EmptyString).
Proof.
  intros Ha. unfold read_number.
  set (tail := match f with
               | O => EmptyString
               | _ => String "." (fixed_digits f m)
               end).
  destruct (decimal_head a) as (c & t & d & E & D).
  destruct (digit_is_no_sign c d D) as (N1 & N2 & N3 & N4).
  assert (read_sign (String.append (decimal a) tail)
          = (false, String.append (decimal a) tail)) as ->.
  { rewrite E. cbn [String.append read_sign]. now rewrite N1, N2. }
  assert (starts_with "Infinity" (String.append (decimal a) tail) = false)
    as ->.
  { rewrite E. cbn [String.append]. unfold starts_with. cbn [String.prefix].
    destruct (ascii_dec "I" c) as [<-|_]; [now elim N4|reflexivity]. }
  rewrite read_digits_app by apply decimal_only.
  rewrite decimal_value by assumption.
  assert (0 + String.length (decimal a) <> 0)%nat as Hlen.
  { rewrite E. simpl. lia. }
  subst tail. destruct f as [|f].
  - cbn [read_digits read_fraction].
    apply Nat.eqb_neq in Hlen. rewrite Nat.add_0_r. rewrite Hlen.
    f_equal. f_equal. cbn [Z.of_nat]. rewrite Z.pow_0_r, Z.mod_1_r.
    reflexivity.
  - cbn [read_digits].
    assert (digit_value "." = None) as -> by reflexivity.
    cbn [read_fraction]. rewrite Ascii.eqb_refl.
    rewrite <- (append_nil_r (fixed_digits (S f) m)).
    rewrite read_digits_app by apply fixed_digits_only.
    rewrite fixed_digits_value, fixed_digits_length.
    cbn [read_digits].
    assert ((0 + String.length (decimal a) + (0 + S f) =? 0)%nat = false)
      as -> by (apply Nat.eqb_neq; lia).
    rewrite Z.mul_0_l, Z.add_0_l. reflexivity.
Qed.

(** *** [toFixed] on non-negative numbers *)

Lemma round_half_up_compat (x y : Q) :
  (x == y)%Q -> round_half_up x = round_half_up y.
Proof. intros H. unfold round_half_up. now rewrite H. Qed.

Lemma round_half_up_nonneg (x : Q) : (0 <= x)%Q -> 0 <= round_half_up x.
Proof.
  intros H. unfold round_half_up.
  change 0 with (Qfloor 0). apply Qfloor_resp_le. lra.
Qed.

Lemma round_half_up_bounds (x : Q) :
  (x - (1 # 2) < inject_Z (round_half_up x))%Q /\
  (inject_Z (round_half_up x) <= x + (1 # 2))%Q.
Proof.
  unfold round_half_up. split.
  - pose proof (Qlt_floor (x + (1 # 2))) as H.
    rewrite inject_Z_plus in H. change (inject_Z 1) with 1%Q in H. lra.
  - apply Qfloor_le.
Qed.

Lemma round_half_up_integer (z : Z) : round_half_up (inject_Z z) = z.
Proof.
  unfold round_half_up.
  pose proof (Qfloor_le (inject_Z z + (1 # 2))) as Hle.
  pose proof (Qlt_floor (inject_Z z + (1 # 2))) as Hlt.
  set (k := Qfloor (inject_Z z + (1 # 2))) in *.
  assert (inject_Z k <= inject_Z z + (1 # 2))%Q as A by exact Hle.
  assert (inject_Z z + (1 # 2) < inject_Z (k + 1))%Q as B by exact Hlt.
  rewrite inject_Z_plus in B. change (inject_Z 1) with 1%Q in B.
  assert (inject_Z k < inject_Z (z + 1))%Q as A'
    by (rewrite inject_Z_plus; change (inject_Z 1) with 1%Q; lra).
  assert (inject_Z z < inject_Z (k + 1))%Q as B'
    by (rewrite inject_Z_plus; change (inject_Z 1) with 1%Q; lra).
  rewrite <- Zlt_Qlt in A', B'. lia.
Qed.

Lemma toFixed_compat (f : nat) (x y : Q) :
  (x == y)%Q -> toFixed f (Fin x) = toFixed f (Fin y).
Proof.
  intros H. unfold toFixed.
  rewrite (Qleb_comp 0%Q 0%Q (Qeq_refl 0) x y H).
  rewrite (round_half_up_compat (Qabs x * inject_Z (10 ^ Z.of_nat f))
             (Qabs y * inject_Z (10 ^ Z.of_nat f)))
    by (now rewrite H).
  reflexivity.
Qed.

Lemma toFixed_num (f : nat) (x : Q) : toFixed f (num x) = toFixed f (Fin x).
Proof. apply toFixed_compat, Qred_correct. Qed.



Lemma toFixed_nonneg (f : nat) (x : Q) :
  (0 <= x)%Q ->
  toFixed f (Fin x) =
  String.append (decimal (scaled f x / 10 ^ Z.of_nat f))
    match f with
    | O => EmptyString
    | _ => String "." (fixed_digits f (scaled f x mod 10 ^ Z.of_nat f))
    end.
Proof.
  intros H. unfold toFixed, scaled.
  assert (Qle_bool 0 x = true) as -> by now apply Qle_bool_iff.
  cbn [negb sign_prefix String.append].
  rewrite (round_half_up_compat (Qabs x * inject_Z (10 ^ Z.of_nat f))
             (x * inject_Z (10 ^ Z.of_nat f)))
    by (now rewrite Qabs_pos).
  reflexivity.
Qed.






(* ================================================================== *)
(** ** Resource engine *)
(* ================================================================== *)






Lemma whole_compat (x y : Q) : (x == y)%Q -> whole x = whole y.
Proof. intros E. unfold whole. f_equal. now apply round_half_up_compat. Qed.











(* ================================================================== *)
(** ** Duration formatter *)
(* ================================================================== *)

Lemma string_of_Z_nonneg (n : Z) : 0 <= n -> string_of_Z n = decimal n.
Proof.
  intros H. unfold string_of_Z.
  assert ((n <? 0) = false) as -> by (apply Z.ltb_ge; lia).
  now rewrite Z.abs_eq.
Qed.

Lemma toString_of_Z (n : Z) : toString (of_Z n) = string_of_Z n.
Proof. unfold toString, of_Z. now rewrite Qfloor_Z. Qed.

Lemma Qle_bool_inject_Z (a b : Z) :
  Qle_bool (inject_Z a) (inject_Z b) = (a <=? b).
Proof. unfold Qle_bool. simpl. now rewrite !Z.mul_1_r. Qed.

Lemma lt_Fin_bool (a b : Q) : lt (Fin a) (Fin b) = negb (Qle_bool b a).
Proof.
  destruct (Qle_bool b a) eqn:E; simpl.
  - apply lt_Fin_false. now apply Qle_bool_iff.
  - apply lt_Fin_true. apply Qnot_le_lt. intros L.
    apply Qle_bool_iff in L. congruence.
Qed.

Lemma gt_Fin_bool (a b : Q) : gt (Fin a) (Fin b) = negb (Qle_bool a b).
Proof.
  destruct (Qle_bool a b) eqn:E; simpl.
  - apply gt_Fin_false. now apply Qle_bool_iff.
  - apply gt_Fin_true. apply Qnot_le_lt. intros L.
    apply Qle_bool_iff in L. congruence.
Qed.

Lemma ge_Fin_bool (a b : Q) : ge (Fin a) (Fin b) = Qle_bool b a.
Proof.
  destruct (Qle_bool b a) eqn:E.
  - apply ge_Fin_true. now apply Qle_bool_iff.
  - apply ge_Fin_false. apply Qnot_le_lt. intros L.
    apply Qle_bool_iff in L. congruence.
Qed.

Lemma ge_of_Z (n k : Z) : ge (of_Z n) (of_Z k) = (k <=? n).
Proof. unfold of_Z. now rewrite ge_Fin_bool, Qle_bool_inject_Z. Qed.

Lemma lt_of_Z (n k : Z) : lt (of_Z n) (of_Z k) = (n <? k).
Proof.
  unfold of_Z. rewrite lt_Fin_bool, Qle_bool_inject_Z.
  now rewrite Z.ltb_antisym.
Qed.

Lemma strict_eq_of_Z (n k : Z) : strict_eq (of_Z n) (of_Z k) = (n =? k).
Proof.
  unfold of_Z. destruct (n =? k) eqn:E.
  - apply Z.eqb_eq in E. subst k. apply strict_eq_Fin. reflexivity.
  - destruct (strict_eq (Fin (inject_Z n)) (Fin (inject_Z k))) eqn:S;
      [|reflexivity].
    apply strict_eq_Fin in S. rewrite inject_Z_injective in S.
    apply Z.eqb_neq in E. contradiction.
Qed.

Lemma Math_max_of_Z (a b : Z) : Math_max (of_Z a) (of_Z b) = of_Z (Z.max a b).
Proof.
  unfold of_Z. rewrite Math_max_Fin, Qle_bool_inject_Z.
  destruct (b <=? a) eqn:E.
  - apply Z.leb_le in E. now rewrite Z.max_l.
  - apply Z.leb_gt in E. now rewrite Z.max_r by lia.
Qed.

Lemma Math_round_mul (y k : Q) :
  Math_round (mul (Fin y) (Fin k)) = of_Z (round_half_up (y * k)).
Proof.
  cbn [mul Math_round]. f_equal. apply round_half_up_compat.
  apply Qmult'_correct.
Qed.

(** The renderings on a finite value, with the tests on integers. *)
Lemma show_days_Fin (y : Q) :
  Calculator.show_days (Fin y) =
  let days := round_half_up (y * 365) in
  (string_of_Z (Z.max 1 days), unit_label days "DAY" "DAYS").
Proof.
  unfold Calculator.show_days. rewrite Math_round_mul.
  change (Fin 1) with (of_Z 1).
  now rewrite Math_max_of_Z, toString_of_Z, strict_eq_of_Z.
Qed.

Lemma Calculator_show_weeks_Fin (y : Q) :
  Calculator.show_weeks (Fin y) =
  let weeks := round_half_up (y * 52) in
  let months := round_half_up (y * 12) in
  if 4 <=? weeks then
    (string_of_Z months, unit_label months "MONTH" "MONTHS")
  else if weeks <? 1 then Calculator.show_days (Fin y)
  else (string_of_Z weeks, unit_label weeks "WEEK" "WEEKS").
Proof.
  unfold Calculator.show_weeks. rewrite !Math_round_mul.
  change (Fin 4) with (of_Z 4). change (Fin 1) with (of_Z 1).
  now rewrite ge_of_Z, lt_of_Z, !strict_eq_of_Z, !toString_of_Z.
Qed.

Lemma Variant_show_weeks_Fin (y : Q) :
  Variant.show_weeks (Fin y) =
  let weeks := round_half_up (y * 52) in
  let months := round_half_up (y * 12) in
  if 4 <=? weeks then
    (string_of_Z months, unit_label months "MONTH" "MONTHS")
  else (string_of_Z weeks, unit_label weeks "WEEK" "WEEKS").
Proof.
  unfold Variant.show_weeks. rewrite !Math_round_mul.
  change (Fin 4) with (of_Z 4). change (Fin 1) with (of_Z 1).
  now rewrite ge_of_Z, !strict_eq_of_Z, !toString_of_Z.
Qed.

Lemma show_months_Fin (y : Q) :
  Calculator.show_months (Fin y) =
  let months := round_half_up (y * 12) in
  if 12 <=? months then ("1"%string, "YEAR"%string)
  else
    (string_of_Z months, unit_label months "MONTH" "MONTHS").
Proof.
  unfold Calculator.show_months. rewrite !Math_round_mul.
  change (Fin 12) with (of_Z 12). change (Fin 1) with (of_Z 1).
  now rewrite ge_of_Z, !strict_eq_of_Z, !toString_of_Z.
Qed.

(** The cascade on a valid result below the sentinel value. *)
Lemma Calculator_displayROI_valid (y : Q) (s d : option number) :
  (y < 999)%Q ->
  Calculator.displayROI (mkROI (Fin y) true s d) =
  if negb (Qle_bool y 10) then ("10+"%string, "YEARS"%string)
  else if negb (Qle_bool (1 # 52) y) then Calculator.show_days (Fin y)
  else if negb (Qle_bool (1 # 12) y) then Calculator.show_weeks (Fin y)
  else if negb (Qle_bool 1 y) then Calculator.show_months (Fin y)
  else Calculator.show_years (Fin y).
Proof.
  intros H. unfold Calculator.displayROI. cbn [valid years andb].
  assert (strict_neq (Fin y) (Fin 999) = true) as ->.
  { unfold strict_neq. destruct (strict_eq (Fin y) (Fin 999)) eqn:E;
      [|reflexivity].
    apply strict_eq_Fin in E. rewrite E in H.
    exfalso. exact (Qlt_irrefl _ H). }
  unfold Calculator.SILENTIA_LIFESPAN_YEARS.
  change (div (Fin 1) (Fin 52)) with (Fin (1 # 52)).
  change (div (Fin 1) (Fin 12)) with (Fin (1 # 12)).
  now rewrite gt_Fin_bool, !lt_Fin_bool.
Qed.

Lemma Variant_displayROI_valid (y : Q) (s d : option number) :
  (y < 999)%Q ->
  Variant.displayROI (mkROI (Fin y) true s d) =
  if negb (Qle_bool y 10) then ("10+"%string, "YEARS"%string)
  else if negb (Qle_bool (1 # 12) y) then Variant.show_weeks (Fin y)
  else if negb (Qle_bool 1 y) then Calculator.show_months (Fin y)
  else Calculator.show_years (Fin y).
Proof.
  intros H. unfold Variant.displayROI. cbn [valid years andb].
  assert (strict_neq (Fin y) (Fin 999) = true) as ->.
  { unfold strict_neq. destruct (strict_eq (Fin y) (Fin 999)) eqn:E;
      [|reflexivity].
    apply strict_eq_Fin in E. rewrite E in H.
    exfalso. exact (Qlt_irrefl _ H). }
  unfold Variant.SILENTIA_LIFESPAN_YEARS.
  change (div (Fin 1) (Fin 12)) with (Fin (1 # 12)).
  now rewrite gt_Fin_bool, !lt_Fin_bool.
Qed.

Lemma Qle_bool_true (a b : Q) : (a <= b)%Q -> Qle_bool a b = true.
Proof. apply Qle_bool_iff. Qed.

(** Bounds on a rounded product. *)
Lemma round_half_up_lower (x : Q) (k : Z) :
  (inject_Z k - (1 # 2) <= x)%Q -> k <= round_half_up x.
Proof.
  intros H. unfold round_half_up.
  rewrite <- (Qfloor_Z k). apply Qfloor_resp_le. lra.
Qed.

Lemma round_half_up_upper (x : Q) (k : Z) :
  (x < inject_Z k + (1 # 2))%Q -> round_half_up x <= k.
Proof.
  intros H. pose proof (proj2 (round_half_up_bounds x)) as B.
  assert (inject_Z (round_half_up x) < inject_Z (k + 1))%Q as L.
  { rewrite inject_Z_plus. change (inject_Z 1) with 1%Q. lra. }
  rewrite <- Zlt_Qlt in L. lia.
Qed.







(* ================================================================== *)
(** ** The two sample computations of the specification, end to end *)
(* ================================================================== *)

Example textile_quarterly_100 :
  Calculator.calculateROI (mkState "textile" "quarterly" 100) =
    mkROI (Fin (255 # 86)) true (Some (Fin 17200)) (Some (Fin 51000)) /\
  fst (Calculator.displayResults (mkState "textile" "quarterly" 100)) =
    ("3"%string, "YEARS"%string) /\
  fst (Variant.displayResults (mkState "textile" "quarterly" 100)) =
    ("3"%string, "YEARS"%string).
Proof. repeat split; vm_compute; reflexivity. Qed.

Example disposable_weekly_50 :
  Calculator.calculateROI (mkState "disposable" "weekly" 50) =
    mkROI (Fin (61 # 3614)) true (Some (Fin 1807000)) (Some (Fin 30500)) /\
  fst (Calculator.displayResults (mkState "disposable" "weekly" 50)) =
    ("6"%string, "DAYS"%string) /\
  Calculator.displayChart (mkState "disposable" "weekly" 50) =
    Some (Calculator.mkCostChart (Fin 100, Fin (7000 # 131))
                                 (Fin (5 # 7), Fin 100)
                                 (Fin (3910 # 3647), Fin 100)).
Proof. repeat split; vm_compute; reflexivity. Qed.

(** A frequency key that is in no table: the multiplier reads
    [undefined], every product with it is [NaN], and neither early return
    is taken. *)
Example unrecognized_frequency :
  Calculator.calculateROI (mkState "textile" "hourly" 10) =
    mkROI NaN true (Some NaN) (Some (Fin 5100)) /\
  Calculator.displayROI (Calculator.calculateROI (mkState "textile" "hourly" 10))
    = ("NaN"%string, "YEAR"%string).
Proof. repeat split; vm_compute; reflexivity. Qed.

(* ================================================================== *)
(** ** Further properties: the economics engine and its display *)
(* ================================================================== *)

Lemma positive_quantity_nonzero (z : Z) : 0 < z -> ~ (inject_Z z == 0)%Q.
Proof.
  intros H E. apply Q_of_positive_quantity in H. rewrite E in H.
  exact (Qlt_irrefl _ H).
Qed.

Lemma years_times_frequency (src : SourceFile) (state : State) (f : Q) :
  0 < quantity state ->
  lookup (cleaningFrequency state) (frequency_table src) = Some f ->
  exists y : Q,
    years (calculateROI_in src state) = Fin y /\
    (y * f == if is_textile state then 510 # 43 else 122 # 139)%Q.
Proof.
  intros Hq Hf.
  rewrite (calculateROI_in_valid src state f Hq Hf). cbn [years].
  eexists. split; [reflexivity|]. rewrite Qred_correct.
  pose proof (recognized_frequency_positive _ _ _ Hf) as Hpos.
  pose proof (positive_quantity_nonzero _ Hq) as Hnz.
  unfold initialDifference_of, annualSavings_of, curtainUnitCost,
    curtainOperatingCost.
  set (q := inject_Z (quantity state)) in *.
  assert (~ f == 0)%Q as Hfz
    by (intros E; rewrite E in Hpos; exact (Qlt_irrefl _ Hpos)).
  destruct src, (is_textile state); cbn; field.
  all: intros E;
    assert (q * f == 0)%Q as E0 by (clear - E; lra);
    apply Qmult_integral in E0; tauto.
Qed.

(** The valid result of a recognized selection lies strictly between 0
    and 12 years. *)
Lemma years_in_range (src : SourceFile) (state : State) (f : Q) :
  0 < quantity state ->
  lookup (cleaningFrequency state) (frequency_table src) = Some f ->
  exists (y : Q) (s d : option number),
    calculateROI_in src state = mkROI (Fin y) true s d /\
    (0 < y)%Q /\ (y < 12)%Q.
Proof.
  intros Hq Hf.
  destruct (years_times_frequency src state f Hq Hf) as (y & Ey & Hy).
  pose proof (recognized_frequency_ge_1 _ _ _ Hf) as H1.
  rewrite (calculateROI_in_valid src state f Hq Hf) in Ey |- *.
  cbn [years] in Ey. rewrite Ey.
  exists y. do 2 eexists. split; [reflexivity|].
  assert (0 < y * f /\ y * f < 12)%Q as [Hlo Hhi].
  { rewrite Hy. destruct (is_textile state); split; reflexivity. }
  split.
  - destruct (Qlt_le_dec 0 y) as [L|L]; [exact L|]. exfalso.
    assert (y * f <= 0)%Q by nra. lra.
  - destruct (Qlt_le_dec y 12) as [L|L]; [exact L|]. exfalso.
    assert (12 <= y * f)%Q by nra. lra.
Qed.







(** *** A frequency that is not a key of the table *)

Lemma mul_NaN_r (x : number) : mul x NaN = NaN.
Proof. destruct x; reflexivity. Qed.

Lemma add_NaN_r (x : number) : add x NaN = NaN.
Proof. destruct x; reflexivity. Qed.

Lemma sub_NaN_r (x : number) : sub x NaN = NaN.
Proof. destruct x; reflexivity. Qed.

Lemma div_NaN_r (x : number) : div x NaN = NaN.
Proof. destruct x; reflexivity. Qed.

Lemma positive_quantity_test (state : State) :
  0 < quantity state -> le (of_Z (quantity state)) (Fin 0) = false.
Proof.
  intros H. rewrite quantity_test. apply Z.leb_gt. exact H.
Qed.

Lemma calculateROI_unrecognized (src : SourceFile) (state : State) :
  0 < quantity state ->
  lookup (cleaningFrequency state) (frequency_table src) = None ->
  exists d : number,
    calculateROI_in src state = mkROI NaN true (Some NaN) (Some d).
Proof.
  intros Hq Hf.
  assert (forall C : CostTable,
             exists d : number,
               calculateROI C (frequency_table src) state =
               mkROI NaN true (Some NaN) (Some d)) as H.
  { intros C. unfold calculateROI.
    rewrite (positive_quantity_test state Hq), Hf. cbn [of_property].
    rewrite !mul_NaN_r.
    replace (sub (if is_textile state then NaN else NaN) NaN) with NaN
      by (destruct (is_textile state); reflexivity).
    cbn [le cmp]. rewrite div_NaN_r. eexists. reflexivity. }
  destruct src; apply H.
Qed.

(** X3.  With a quantity > 0 and a frequency that is not a key of the
    file's table (as "daily" in the second file), nothing is rejected:
    the result counts as valid, the page shows NaN YEAR, calculator.js
    draws both stacked bars and both lower cost rows with width 0, and the
    second file prints NaN for every resource. *)
Theorem unrecognized_frequency_shows_NaN :
  forall (state : State),
    0 < quantity state ->
    (lookup (cleaningFrequency state) Calculator.FREQUENCY_MULTIPLIER = None ->
     valid (Calculator.calculateROI state) = true /\
     Calculator.displayResults state =
       (("NaN", "YEAR")%string,
        Some (Calculator.mkStacked (Fin 0) (Fin 0)
                (if is_textile state then [Fin 0; Fin 0] else [Fin 100])
                (Fin 0) (Fin 0))) /\
     exists row : number * number,
       Calculator.displayChart state =
       Some (Calculator.mkCostChart row (Fin 0, Fin 0) (Fin 0, Fin 0))) /\
    (lookup (cleaningFrequency state) Variant.FREQUENCY_MULTIPLIER = None ->
     valid (Variant.calculateROI state) = true /\
     Variant.displayResults state =
       (("NaN", "YEAR")%string,
        Some (if is_textile state
              then textile (Textile.mk "NaN" "NaN" "NaN" "NaN"
                              "NaN" "NaN" "NaN" "NaN")%string
              else disposable
                     (Disposable.mk "NaN" "NaN" "NaN" "NaN")%string))).
Proof.
  intros state Hq. split; intros Hf.
  - destruct (calculateROI_unrecognized calculator_js state Hq Hf) as (d & E).
    cbn [calculateROI_in] in E.
    split; [now rewrite E|]. split.
    + unfold Calculator.displayResults. rewrite E. f_equal.
      unfold Calculator.calculateResources, Calculator.calculateResources_with.
      rewrite (positive_quantity_test state Hq), Hf. cbn [of_property].
      rewrite !mul_NaN_r.
      destruct (is_textile state); reflexivity.
    + unfold Calculator.displayChart.
      rewrite (positive_quantity_test state Hq), Hf. cbn [of_property].
      rewrite !mul_NaN_r.
      replace (if is_textile state then NaN else NaN) with NaN
        by (destruct (is_textile state); reflexivity).
      change (mul NaN Calculator.SILENTIA_LIFESPAN_YEARS) with NaN.
      rewrite !add_NaN_r. eexists. reflexivity.
  - destruct (calculateROI_unrecognized second_file state Hq Hf) as (d & E).
    cbn [calculateROI_in] in E.
    split; [now rewrite E|].
    unfold Variant.displayResults. rewrite E. f_equal.
    unfold Variant.calculateResources, Variant.calculateResources_with.
    rewrite (positive_quantity_test state Hq), Hf. cbn [of_property].
    rewrite !mul_NaN_r.
    destruct (is_textile state); reflexivity.
Qed.

Lemma unrecognized_frequency_shows_NaN_witness :
  Variant.displayResults (mkState "disposable" "daily" 10) =
  (("NaN", "YEAR")%string,
   Some (disposable (Disposable.mk "NaN" "NaN" "NaN" "NaN")%string)).
Proof.
  exact (proj2 (proj2 (unrecognized_frequency_shows_NaN
                         (mkState "disposable" "daily" 10) eq_refl)
                  eq_refl)).
Defined.

(* ================================================================== *)
(** ** Further properties: what the duration display can show *)
(* ================================================================== *)

(** Every string the number formatters produce reads back in full. *)

Lemma is_numeral_unsigned (a m : Z) (f : nat) :
  0 <= a ->
  is_numeral
    (String.append (decimal a)
       match f with
       | O => EmptyString
       | _ => String "." (fixed_digits f m)
       end) = true.
Proof.
  intros Ha. unfold is_numeral. now rewrite read_number_decimal.
Qed.

Lemma is_numeral_minus (c : ascii) (t : string) (d : Z) :
  digit_value c = Some d ->
  is_numeral (String c t) = true ->
  is_numeral (String "-" (String c t)) = true.
Proof.
  intros D. destruct (digit_is_no_sign c d D) as (N1 & N2 & N3 & N4).
  unfold is_numeral, read_number.
  cbn [read_sign]. rewrite Ascii.eqb_refl, N1, N2.
  assert (starts_with "Infinity" (String c t) = false) as ->.
  { unfold starts_with. cbn [String.prefix].
    destruct (ascii_dec "I" c) as [<-|_]; [now elim N4|reflexivity]. }
  destruct (read_digits (String c t) 0 0) as [[ip ni] s2].
  destruct (read_fraction s2) as [[fp nf] s3].
  destruct (ni + nf =? 0)%nat.
  - intros H. apply String.eqb_eq in H. injection H as H _.
    rewrite H in D. discriminate D.
  - destruct s3; [reflexivity|].
    intros H. apply String.eqb_eq in H. injection H as H _.
    rewrite H in D. discriminate D.
Qed.

Lemma is_numeral_signed (negative : bool) (a m : Z) (f : nat) :
  0 <= a ->
  is_numeral
    (String.append (sign_prefix negative)
       (String.append (decimal a)
          match f with
          | O => EmptyString
          | _ => String "." (fixed_digits f m)
          end)) = true.
Proof.
  intros Ha. pose proof (is_numeral_unsigned a m f Ha) as H.
  destruct negative; [|exact H].
  destruct (decimal_head a) as (c & t & d & E & D).
  rewrite E in H |- *. cbn [sign_prefix String.append] in H |- *.
  exact (is_numeral_minus c _ d D H).
Qed.

Lemma is_numeral_toString (x : number) : is_numeral (toString x) = true.
Proof.
  destruct x as [q| | |]; try reflexivity.
  unfold toString. cbv zeta.
  rewrite <- (append_nil_r (decimal (Z.abs (Qfloor q)))).
  apply (is_numeral_signed _ _ 0 O). apply Z.abs_nonneg.
Qed.

Lemma is_numeral_toFixed (f : nat) (x : number) :
  is_numeral (toFixed f x) = true.
Proof.
  destruct x as [q| | |]; try reflexivity.
  unfold toFixed. cbv zeta.
  set (n := round_half_up (Qabs q * inject_Z (10 ^ Z.of_nat f))).
  assert (0 <= n / 10 ^ Z.of_nat f) as Ha.
  { apply Z.div_pos; [|apply Z.pow_pos_nonneg; lia].
    apply round_half_up_nonneg. apply Qmult_le_0_compat.
    - apply Qabs_nonneg.
    - change 0%Q with (inject_Z 0). rewrite <- Zle_Qle.
      apply Z.pow_nonneg. lia. }
  destruct f as [|f].
  - apply (is_numeral_signed _ _ 0 O Ha).
  - rewrite <- (Z.mod_mod n (10 ^ Z.of_nat (S f)))
      by (apply Z.pow_nonzero; lia).
    replace (fixed_digits (S f) ((n mod 10 ^ Z.of_nat (S f))
                                 mod 10 ^ Z.of_nat (S f)))
      with (fixed_digits (S f) (n mod 10 ^ Z.of_nat (S f))).
    + apply (is_numeral_signed _ _ (n mod 10 ^ Z.of_nat (S f)) (S f) Ha).
    + now rewrite Z.mod_mod by (apply Z.pow_nonzero; lia).
Qed.

(** A valid result other than 999 is shown as "10+" or as a numeral. *)
Lemma displayROI_valid_shape (src : SourceFile) (roi : ROI) :
  valid roi = true ->
  strict_eq (years roi) (Fin 999) = false ->
  (gt (years roi) (Fin 10) = true /\
   displayROI_in src roi = ("10+", "YEARS")%string) \/
  (gt (years roi) (Fin 10) = false /\
   is_numeral (fst (displayROI_in src roi)) = true).
Proof.
  intros Hv Hy. destruct roi as [y v s d]. cbn [valid years] in Hv, Hy.
  subst v.
  destruct src; cbn [displayROI_in];
    unfold Calculator.displayROI, Variant.displayROI;
    cbn [valid years]; unfold strict_neq; rewrite Hy; cbn [negb andb];
    unfold Calculator.SILENTIA_LIFESPAN_YEARS,
      Variant.SILENTIA_LIFESPAN_YEARS;
    (destruct (gt y (Fin 10)); [left; split; reflexivity|right]);
    (split; [reflexivity|]);
    unfold Variant.show_weeks, Calculator.show_weeks, Calculator.show_days,
      Calculator.show_months, Calculator.show_years; cbv zeta;
    repeat match goal with
           | |- context [if ?b then _ else _] => destruct b
           end;
    cbn [fst];
    first [ apply is_numeral_toString | apply is_numeral_toFixed
          | reflexivity ].
Qed.

(** X4.  In both files the duration text is "N/A" exactly when the result's
    years are 999 (whatever its valid flag), "--" exactly when the result
    is not valid and its years are not 999, and "10+" exactly when the
    result is valid and its years are above 10 and not 999: no number is
    ever printed as one of the three. *)
Theorem placeholder_texts_characterised :
  forall (src : SourceFile) (roi : ROI),
    let text := fst (displayROI_in src roi) in
    (text = "N/A"%string <-> strict_eq (years roi) (Fin 999) = true) /\
    (text = "--"%string <->
       valid roi = false /\ strict_eq (years roi) (Fin 999) = false) /\
    (text = "10+"%string <->
       valid roi = true /\ strict_eq (years roi) (Fin 999) = false /\
       gt (years roi) (Fin 10) = true).
Proof.
  intros src roi text.
  destruct (valid roi) eqn:Hv.
  - destruct (strict_eq (years roi) (Fin 999)) eqn:Hy.
    + assert (text = "N/A"%string) as E.
      { subst text. destruct roi as [y v s d]. cbn [valid years] in Hv, Hy.
        destruct src; cbn [displayROI_in];
          unfold Calculator.displayROI, Variant.displayROI, strict_neq;
          cbn [valid years]; rewrite Hv, Hy; reflexivity. }
      rewrite E. repeat split; intros; try reflexivity;
        intuition discriminate.
    + destruct (displayROI_valid_shape src roi Hv Hy) as [[G E]|[G N]].
      * assert (text = "10+"%string) as T by (subst text; now rewrite E).
        rewrite T, G. repeat split; intros; try reflexivity;
          intuition discriminate.
      * fold text in N. rewrite G.
        repeat split; intros;
          try match goal with
              | H : text = _ |- _ => rewrite H in N; discriminate N
              end;
          intuition discriminate.
  - assert (text = if strict_eq (years roi) (Fin 999)
                   then "N/A"%string else "--"%string) as E.
    { subst text. destruct roi as [y v s d]. cbn [valid years] in Hv |- *.
      destruct src; cbn [displayROI_in];
        unfold Calculator.displayROI, Variant.displayROI;
        cbn [valid years]; rewrite Hv; cbn [andb];
        destruct (strict_eq y (Fin 999)); reflexivity. }
    rewrite E. destruct (strict_eq (years roi) (Fin 999));
      repeat split; intros; try reflexivity; intuition discriminate.
Qed.

Lemma placeholder_texts_characterised_witness :
  fst (displayROI_in second_file (mkROI (Fin 999) true None None))
  = "N/A"%string.
Proof.
  exact (proj2 (proj1 (placeholder_texts_characterised second_file
                         (mkROI (Fin 999) true None None)))
           eq_refl).
Defined.

(* ================================================================== *)
(** ** Further properties: when the pages redraw *)
(* ================================================================== *)

(** With a quantity > 0 neither placeholder is shown, whatever the
    selection. *)
Lemma shown_is_no_placeholder (src : SourceFile) (state : State) :
  0 < quantity state ->
  fst (displayROI_in src (calculateROI_in src state)) <> "--"%string /\
  fst (displayROI_in src (calculateROI_in src state)) <> "N/A"%string.
Proof.
  intros Hq.
  assert (valid (calculateROI_in src state) = true /\
          strict_eq (years (calculateROI_in src state)) (Fin 999) = false)
    as [Hv Hy].
  { destruct (lookup (cleaningFrequency state) (frequency_table src))
      as [f|] eqn:Hf.
    - destruct (years_in_range src state f Hq Hf)
        as (y & s & d & E & Hlo & Hhi).
      rewrite E. cbn [valid years]. split; [reflexivity|].
      destruct (strict_eq (Fin y) (Fin 999)) eqn:S; [|reflexivity].
      apply strict_eq_Fin in S. rewrite S in Hhi. discriminate Hhi.
    - destruct (calculateROI_unrecognized src state Hq Hf) as (d & E).
      rewrite E. split; reflexivity. }
  destruct (displayROI_valid_shape src _ Hv Hy) as [[_ E]|[_ N]].
  - rewrite E. split; discriminate.
  - split; intros E; rewrite E in N; discriminate N.
Qed.

Lemma Calculator_resources_present (state : State) :
  0 < quantity state ->
  exists r, Calculator.calculateResources state = Some r.
Proof.
  intros Hq.
  unfold Calculator.calculateResources, Calculator.calculateResources_with.
  rewrite (positive_quantity_test state Hq).
  destruct (is_textile state); eexists; reflexivity.
Qed.

Lemma Variant_resources_present (state : State) :
  0 < quantity state ->
  exists r, Variant.calculateResources state = Some r.
Proof.
  intros Hq.
  unfold Variant.calculateResources, Variant.calculateResources_with.
  rewrite (positive_quantity_test state Hq).
  destruct (is_textile state); eexists; reflexivity.
Qed.

Lemma positive_quantity_gt (z : Z) : gt (of_Z z) (Fin 0) = (0 <? z).
Proof.
  unfold of_Z. rewrite gt_Fin_bool. unfold Qle_bool. simpl.
  rewrite Z.mul_1_r. rewrite Z.ltb_antisym. reflexivity.
Qed.

(** X5.  calculator.js, [update]: with a quantity <= 0 nothing is
    redrawn, so that the page keeps showing what it showed before (also
    after the quantity field is emptied or given letters); with a
    quantity > 0 the duration, the stacked chart and the cost chart are
    all written, and the duration text is then neither "--" nor "N/A":
    those two branches of displayResults are never taken on this page. *)
Theorem update_redraws_iff_quantity_positive :
  forall (p : CalculatorPage.Page),
    (quantity (CalculatorPage.page_state p) <= 0 ->
     CalculatorPage.update p = p) /\
    (0 < quantity (CalculatorPage.page_state p) ->
     exists (text unit : string) (stacked : Calculator.StackedChart)
            (chart : Calculator.CostChart),
       CalculatorPage.update p =
       CalculatorPage.mkPage (CalculatorPage.page_document p)
         (CalculatorPage.page_state p)
         (Some (((text, unit), Some stacked), Some chart)) /\
       text <> "--"%string /\ text <> "N/A"%string) /\
    (forall value : string,
        DOM.quantity_of_input value <= 0 ->
        CalculatorPage.page_screen (CalculatorPage.input_quantity value p)
        = CalculatorPage.page_screen p).
Proof.
  intros p. split; [|split].
  - intros Hq. unfold CalculatorPage.update.
    rewrite positive_quantity_gt.
    now replace (0 <? quantity (CalculatorPage.page_state p)) with false
      by (symmetry; apply Z.ltb_ge; exact Hq).
  - intros Hq. unfold CalculatorPage.update.
    rewrite positive_quantity_gt.
    replace (0 <? quantity (CalculatorPage.page_state p)) with true
      by (symmetry; apply Z.ltb_lt; exact Hq).
    set (st := CalculatorPage.page_state p) in *.
    destruct (shown_is_no_placeholder calculator_js st Hq) as [N1 N2].
    cbn [displayROI_in calculateROI_in] in N1, N2.
    destruct (Calculator_resources_present st Hq) as (r & Er).
    unfold Calculator.displayResults. rewrite Er. cbn [option_map].
    destruct (Calculator.displayROI (Calculator.calculateROI st))
      as [text unit] eqn:Ed.
    assert (exists chart, Calculator.displayChart st = Some chart)
      as (chart & Ec).
    { unfold Calculator.displayChart.
      rewrite (positive_quantity_test st Hq). eexists. reflexivity. }
    rewrite Ec. exists text, unit, (Calculator.stackedChart r), chart.
    split; [reflexivity|]. split; assumption.
  - intros value Hq. unfold CalculatorPage.input_quantity.
    unfold CalculatorPage.update. cbn [CalculatorPage.page_state].
    unfold DOM.enter_quantity. cbn [quantity].
    rewrite positive_quantity_gt.
    now replace (0 <? DOM.quantity_of_input value) with false
      by (symmetry; apply Z.ltb_ge; exact Hq).
Qed.

Lemma update_redraws_iff_quantity_positive_witness :
  CalculatorPage.update
    (CalculatorPage.mkPage [] (mkState "textile" "weekly" (-3)) None)
  = CalculatorPage.mkPage [] (mkState "textile" "weekly" (-3)) None.
Proof.
  apply (proj1 (update_redraws_iff_quantity_positive
                  (CalculatorPage.mkPage []
                     (mkState "textile" "weekly" (-3)) None))).
  simpl. lia.
Defined.

(** X6.  The second file, [handleCalculate]: with a quantity <= 0 the
    alert is shown and the page is left as it was; with a quantity > 0
    there is no alert, the duration and the resources are written, and
    the duration text is neither "--" nor "N/A". *)
Theorem handleCalculate_alerts_iff_quantity_nonpositive :
  forall (p : VariantPage.Page),
    (quantity (VariantPage.page_state p) <= 0 ->
     VariantPage.handleCalculate p = (p, true)) /\
    (0 < quantity (VariantPage.page_state p) ->
     exists (text unit : string) (resources : Resources string),
       VariantPage.handleCalculate p =
       (VariantPage.mkPage (VariantPage.page_document p)
          (VariantPage.page_state p)
          (Some ((text, unit), Some resources)), false) /\
       text <> "--"%string /\ text <> "N/A"%string).
Proof.
  intros p. split.
  - intros Hq. unfold VariantPage.handleCalculate.
    rewrite quantity_test.
    now replace (quantity (VariantPage.page_state p) <=? 0) with true
      by (symmetry; apply Z.leb_le; exact Hq).
  - intros Hq. unfold VariantPage.handleCalculate.
    rewrite (positive_quantity_test _ Hq).
    set (st := VariantPage.page_state p) in *.
    destruct (shown_is_no_placeholder second_file st Hq) as [N1 N2].
    cbn [displayROI_in calculateROI_in] in N1, N2.
    destruct (Variant_resources_present st Hq) as (r & Er).
    unfold Variant.displayResults. rewrite Er.
    destruct (Variant.displayROI (Variant.calculateROI st))
      as [text unit] eqn:Ed.
    exists text, unit, r. split; [reflexivity|]. split; assumption.
Qed.

Lemma handleCalculate_alerts_iff_quantity_nonpositive_witness :
  VariantPage.handleCalculate
    (VariantPage.mkPage [] (mkState "textile" "weekly" 0) None)
  = (VariantPage.mkPage [] (mkState "textile" "weekly" 0) None, true).
Proof.
  apply (proj1 (handleCalculate_alerts_iff_quantity_nonpositive
                  (VariantPage.mkPage []
                     (mkState "textile" "weekly" 0) None))).
  simpl. lia.
Defined.

(* ================================================================== *)
(** ** Further properties: the cost chart *)
(* ================================================================== *)


Lemma percentage_zero (v d : Q) : (d == 0)%Q -> percentage v d = Fin 0.
Proof.
  intros H. unfold percentage.
  now replace (Qeq_bool d 0) with true by (symmetry; now apply Qeq_bool_iff).
Qed.

Lemma percentage_value (v d : Q) :
  ~ (d == 0)%Q -> percentage v d = Fin (Qred (v / d * 100)).
Proof.
  intros H. unfold percentage.
  destruct (Qeq_bool d 0) eqn:E; [|reflexivity].
  apply Qeq_bool_iff in E. now elim H.
Qed.

(** Both widths of a row, whichever representatives the amounts have. *)
Lemma createBarRow_percentages (s' c' s c : Q) :
  (s' == s)%Q -> (c' == c)%Q -> (0 <= s)%Q ->
  Calculator.createBarRow (Fin s') (Fin c') =
  (percentage s (Qmax s c), percentage c (Qmax s c)).
Proof.
  intros Es Ec Hs. unfold Calculator.createBarRow. rewrite Math_max_Qmax.
  assert (Qmax s' c' == Qmax s c)%Q as Em by (rewrite Es, Ec; reflexivity).
  change ((percent_of (Fin s') (Fin (Qmax s' c')),
           percent_of (Fin c') (Fin (Qmax s' c'))) =
          (percentage s (Qmax s c), percentage c (Qmax s c))).
  rewrite !(percent_of_percentage _ _ _ (Qmax_nonneg s c Hs) Em).
  now rewrite (percentage_compat s' s _ Es), (percentage_compat c' c _ Ec).
Qed.

Lemma percentage_range (v d : Q) :
  (0 <= v)%Q -> (v <= d)%Q ->
  exists a : Q, percentage v d = Fin a /\ (0 <= a)%Q /\ (a <= 100)%Q.
Proof.
  intros Hv Hd. destruct (Qeq_dec d 0) as [E|E].
  - exists 0%Q. rewrite (percentage_zero v d E).
    split; [reflexivity|]. split; [apply Qle_refl|discriminate].
  - rewrite (percentage_value v d E). eexists. split; [reflexivity|].
    rewrite Qred_correct.
    assert (0 < d)%Q as Hpos.
    { destruct (Qlt_le_dec 0 d) as [L|L]; [exact L|].
      elim E. apply Qle_antisym; [exact L|].
      apply Qle_trans with v; assumption. }
    set (r := (v / d)%Q).
    assert (r * d == v)%Q as Er by (subst r; field; exact E).
    split.
    + assert (0 <= r)%Q.
      { destruct (Qlt_le_dec r 0) as [L|L]; [|exact L]. exfalso.
        assert (r * d < 0)%Q by nra. lra. }
      lra.
    + assert (r <= 1)%Q.
      { destruct (Qlt_le_dec 1 r) as [L|L]; [|exact L]. exfalso.
        assert (d < r * d)%Q by nra. lra. }
      lra.
Qed.

Lemma percentage_full (v d : Q) :
  (0 < d)%Q -> (v == d)%Q -> percentage v d = Fin 100.
Proof.
  intros Hd E.
  assert (~ d == 0)%Q as Hz
    by (intros Z; rewrite Z in Hd; exact (Qlt_irrefl _ Hd)).
  rewrite (percentage_value v d Hz).
  change (Fin 100) with (Fin (Qred 100)). f_equal.
  apply Qred_complete. rewrite E. field. exact Hz.
Qed.


(** X7.  [createBarRow], for two amounts that are not negative: both
    widths lie between 0 and 100; unless both amounts are 0, the larger
    amount's bar is exactly 100 wide; when both are 0, both widths are
    0. *)
Theorem createBarRow_widths_bounded :
  forall (s c : Q),
    (0 <= s)%Q -> (0 <= c)%Q ->
    exists a b : Q,
      Calculator.createBarRow (Fin s) (Fin c) = (Fin a, Fin b) /\
      (0 <= a)%Q /\ (a <= 100)%Q /\ (0 <= b)%Q /\ (b <= 100)%Q /\
      ((0 < s)%Q \/ (0 < c)%Q ->
       ((c <= s)%Q -> a = 100%Q) /\ ((s <= c)%Q -> b = 100%Q)) /\
      ((s == 0)%Q -> (c == 0)%Q -> a = 0%Q /\ b = 0%Q).
Proof.
  intros s c Hs Hc.
  rewrite (createBarRow_percentages s c s c (Qeq_refl _) (Qeq_refl _) Hs).
  destruct (percentage_range s (Qmax s c) Hs (Q.le_max_l s c))
    as (a & Ea & Ha0 & Ha1).
  destruct (percentage_range c (Qmax s c) Hc (Q.le_max_r s c))
    as (b & Eb & Hb0 & Hb1).
  exists a, b. rewrite Ea, Eb. split; [reflexivity|].
  repeat match goal with
         | |- _ /\ _ => split
         end; try assumption.
  - intros Hpos.
    assert (0 < Qmax s c)%Q as Hm.
    { destruct Hpos as [H|H].
      - apply Qlt_le_trans with s; [exact H|apply Q.le_max_l].
      - apply Qlt_le_trans with c; [exact H|apply Q.le_max_r]. }
    split; intros Hle.
    + assert (s == Qmax s c)%Q as E by (symmetry; now apply Q.max_l).
      rewrite (percentage_full s (Qmax s c) Hm E) in Ea. congruence.
    + assert (c == Qmax s c)%Q as E by (symmetry; now apply Q.max_r).
      rewrite (percentage_full c (Qmax s c) Hm E) in Eb. congruence.
  - intros Zs Zc.
    assert (Qmax s c == 0)%Q as Z by (rewrite Zs, Zc; reflexivity).
    rewrite (percentage_zero s _ Z) in Ea.
    rewrite (percentage_zero c _ Z) in Eb. split; congruence.
Qed.

Lemma createBarRow_widths_bounded_witness :
  exists a b : Q,
    Calculator.createBarRow (Fin 1310) (Fin 800) = (Fin a, Fin b) /\
    (0 <= a)%Q /\ (a <= 100)%Q /\ (0 <= b)%Q /\ (b <= 100)%Q /\
    ((0 < 1310)%Q \/ (0 < 800)%Q ->
     ((800 <= 1310)%Q -> a = 100%Q) /\ ((1310 <= 800)%Q -> b = 100%Q)) /\
    ((1310 == 0)%Q -> (800 == 0)%Q -> a = 0%Q /\ b = 0%Q).
Proof.
  apply (createBarRow_widths_bounded 1310 800); unfold Qle; simpl; lia.
Defined.










(* ================================================================== *)
(** ** Further properties: the stacked resource chart *)
(* ================================================================== *)








(* ================================================================== *)
(** ** Further properties: the quantity field *)
(* ================================================================== *)












(* ================================================================== *)
(** ** Further properties: the buttons and the info popups *)
(* ================================================================== *)










(* ================================================================== *)
(** ** Further properties: the number shown and its label *)
(* ================================================================== *)

Lemma Qabs_far (x : Q) :
  ((1 # 10) <= x)%Q \/ (x <= - (1 # 10))%Q -> ((1 # 10) <= Qabs x)%Q.
Proof.
  intros [H|H].
  - apply Qle_trans with x; [exact H|apply Qle_Qabs].
  - rewrite <- Qabs_opp. apply Qle_trans with (- x)%Q; [lra|apply Qle_Qabs].
Qed.

Lemma tenth_of_Z (n : Z) :
  (inject_Z n / 10 == inject_Z (n / 10) + inject_Z (n mod 10) / 10)%Q.
Proof.
  rewrite (Z.div_mod n 10) at 1 by lia.
  rewrite inject_Z_plus, inject_Z_mult. change (inject_Z 10) with 10%Q.
  field.
Qed.

(** The body of the final [else] on a finite value that is not
    negative, [n] being the value in tenths. *)
Lemma show_years_Fin (y : Q) :
  (0 <= y)%Q ->
  Calculator.show_years (Fin y) =
  let n := round_half_up (y * 10) in
  (if n mod 10 =? 0 then decimal (n / 10) else one_decimal n,
   if 10 <? n then "YEARS"%string else "YEAR"%string).
Proof.
  intros Hy. unfold Calculator.show_years. rewrite Math_round_mul.
  cbv zeta. set (n := round_half_up (y * 10)).
  assert (0 <= n) as Hn by (apply round_half_up_nonneg; lra).
  assert (div (of_Z n) (Fin 10) = Fin (Qred (inject_Z n / 10))) as ->
    by reflexivity.
  set (r := Qred (inject_Z n / 10)).
  assert (r == inject_Z n / 10)%Q as Er by apply Qred_correct.
  assert (0 <= r)%Q as Hr.
  { rewrite Er. assert (0 <= inject_Z n)%Q
      by (change 0%Q with (inject_Z 0); now rewrite <- Zle_Qle).
    assert (inject_Z n / 10 == inject_Z n * (1 # 10))%Q as -> by field.
    lra. }
  cbn [Math_round]. set (R := round_half_up r).
  unfold of_Z at 1. cbn [sub Math_abs].
  rewrite lt_Fin_bool, gt_Fin_bool, toString_of_Z.
  pose proof (Z.mod_pos_bound n 10 ltac:(lia)) as Hm.
  pose proof (tenth_of_Z n) as Ht.
  f_equal.
  - destruct (Z.eqb_spec (n mod 10) 0) as [M|M].
    + assert (r == inject_Z (n / 10))%Q as Ek.
      { rewrite Er, Ht, M. change (inject_Z 0) with 0%Q. field. }
      assert (R = n / 10) as ER.
      { subst R. rewrite (round_half_up_compat _ _ Ek).
        apply round_half_up_integer. }
      rewrite ER.
      assert (Qle_bool 0.01 (Qred (Qabs (Qminus' r (inject_Z (n / 10)))))
              = false) as ->.
      { apply Qle_bool_false. rewrite Qred_correct.
        unfold Qminus'. rewrite Qred_correct. rewrite Ek.
        assert (inject_Z (n / 10) - inject_Z (n / 10) == 0)%Q as -> by ring.
        reflexivity. }
      cbn [negb]. apply string_of_Z_nonneg. apply Z.div_pos; lia.
    + assert (Qle_bool 0.01 (Qred (Qabs (Qminus' r (inject_Z R)))) = true)
        as ->.
      { apply Qle_bool_true. rewrite Qred_correct.
        unfold Qminus'. rewrite Qred_correct.
        apply Qle_trans with (1 # 10)%Q; [discriminate|].
        apply Qabs_far. rewrite Er, Ht.
        set (k := n / 10) in *. set (m := n mod 10) in *.
        assert (k - R >= 0 \/ k - R <= -1) as [C|C] by lia.
        - left.
          assert (0 <= inject_Z (k - R))%Q as H1
            by (change 0%Q with (inject_Z 0); rewrite <- Zle_Qle; lia).
          assert (1 <= inject_Z m)%Q as H2
            by (change 1%Q with (inject_Z 1); rewrite <- Zle_Qle; lia).
          unfold Z.sub in H1. rewrite inject_Z_plus, inject_Z_opp in H1.
          assert (inject_Z m / 10 == inject_Z m * (1 # 10))%Q as -> by field.
          lra.
        - right.
          assert (inject_Z (k - R) <= - (1))%Q as H1
            by (change (- (1))%Q with (inject_Z (-1));
                rewrite <- Zle_Qle; lia).
          assert (inject_Z m <= 9)%Q as H2
            by (change 9%Q with (inject_Z 9); rewrite <- Zle_Qle; lia).
          unfold Z.sub in H1. rewrite inject_Z_plus, inject_Z_opp in H1.
          assert (inject_Z m / 10 == inject_Z m * (1 # 10))%Q as -> by field.
          lra. }
      cbn [negb]. rewrite (toFixed_nonneg 1 r Hr).
      assert (scaled 1 r = n) as ->.
      { unfold scaled. change (10 ^ Z.of_nat 1) with 10.
        rewrite <- (round_half_up_integer n).
        apply round_half_up_compat. rewrite Er.
        change (inject_Z 10) with 10%Q. field. }
      change (10 ^ Z.of_nat 1) with 10.
      unfold one_decimal. cbn [fixed_digits String.append].
      now rewrite Z.mod_mod by lia.
  - assert (Qle_bool r 1 = (n <=? 10)) as ->.
    { rewrite <- (Qle_bool_inject_Z n 10).
      destruct (Qle_bool r 1) eqn:A; symmetry.
      - apply Qle_bool_iff in A. apply Qle_bool_iff.
        change (inject_Z 10) with 10%Q.
        assert (inject_Z n == r * 10)%Q as -> by (rewrite Er; field). lra.
      - destruct (Qle_bool (inject_Z n) (inject_Z 10)) eqn:B; [|reflexivity].
        apply Qle_bool_iff in B. change (inject_Z 10) with 10%Q in B.
        assert (r <= 1)%Q as C.
        { rewrite Er.
          assert (inject_Z n / 10 == inject_Z n * (1 # 10))%Q as -> by field.
          lra. }
        apply Qle_bool_iff in C. congruence. }
    rewrite Z.ltb_antisym. reflexivity.
Qed.

Lemma decimal_inj (a b : Z) :
  0 <= a -> 0 <= b -> decimal a = decimal b -> a = b.
Proof.
  intros Ha Hb E. rewrite <- (decimal_value a Ha), <- (decimal_value b Hb).
  now rewrite E.
Qed.

Lemma decimal_is_1 (m : Z) : 0 <= m -> (decimal m = "1"%string <-> m = 1).
Proof.
  intros Hm. split.
  - intros E. apply (decimal_inj m 1 Hm); [lia|]. rewrite E.
    vm_compute. reflexivity.
  - intros ->. vm_compute. reflexivity.
Qed.

Lemma decimal_is_0 (m : Z) : 0 <= m -> (decimal m = "0"%string <-> m = 0).
Proof.
  intros Hm. split.
  - intros E. apply (decimal_inj m 0 Hm); [lia|]. rewrite E.
    vm_compute. reflexivity.
  - intros ->. vm_compute. reflexivity.
Qed.

Lemma one_decimal_is_long (n : Z) (c : ascii) :
  one_decimal n <> String c EmptyString.
Proof.
  intros E. apply (f_equal String.length) in E.
  unfold one_decimal in E. rewrite length_append in E.
  cbn [String.length] in E.
  destruct (decimal_head (n / 10)) as (h & t & d & Eh & _).
  rewrite Eh in E. cbn [String.length] in E. lia.
Qed.

(** A number of whole units and its label. *)
Lemma counted_label (m : Z) (singular plural : string) :
  0 <= m ->
  is_singular singular = true -> is_singular plural = false ->
  (string_of_Z m = "0"%string <-> m = 0) /\
  (is_singular (unit_label m singular plural) = true <->
   string_of_Z m = "1"%string).
Proof.
  intros Hm Hs Hp. rewrite (string_of_Z_nonneg m Hm).
  split; [apply decimal_is_0; exact Hm|].
  rewrite (decimal_is_1 m Hm). unfold unit_label.
  destruct (Z.eqb_spec m 1) as [E|E].
  - rewrite Hs. tauto.
  - rewrite Hp. split; [discriminate|contradiction].
Qed.

Lemma rounded_at_least_1 (x : Q) : ((1 # 2) <= x)%Q -> 1 <= round_half_up x.
Proof.
  intros H. apply round_half_up_lower. change (inject_Z 1) with 1%Q. lra.
Qed.

Lemma rounded_is_0 (x : Q) :
  (0 <= x)%Q -> (round_half_up x = 0 <-> (x < 1 # 2)%Q).
Proof.
  intros Hx. split.
  - intros E. destruct (Qlt_le_dec x (1 # 2)) as [L|L]; [exact L|].
    apply rounded_at_least_1 in L. lia.
  - intros L. pose proof (round_half_up_nonneg x Hx).
    assert (round_half_up x <= 0)
      by (apply round_half_up_upper; change (inject_Z 0) with 0%Q; lra).
    lia.
Qed.

(** The years bucket: the number shown and its label. *)
Lemma years_label (y : Q) :
  (1 <= y)%Q ->
  fst (Calculator.show_years (Fin y)) <> "0"%string /\
  (is_singular (snd (Calculator.show_years (Fin y))) = true <->
   fst (Calculator.show_years (Fin y)) = "1"%string).
Proof.
  intros Hy. rewrite show_years_Fin by lra. cbv zeta.
  set (n := round_half_up (y * 10)).
  assert (10 <= n) as Hn.
  { apply round_half_up_lower. change (inject_Z 10) with 10%Q. lra. }
  cbn [fst snd].
  destruct (Z.eqb_spec (n mod 10) 0) as [M|M].
  - assert (n = 10 * (n / 10)) as Hk
      by (rewrite (Z.div_mod n 10) at 1 by lia; lia).
    assert (1 <= n / 10) as H1 by lia.
    split.
    + rewrite decimal_is_0 by lia. lia.
    + rewrite decimal_is_1 by lia.
      destruct (Z.ltb_spec 10 n) as [L|L].
      * split; [discriminate|lia].
      * split; [lia|reflexivity].
  - split; [apply one_decimal_is_long|].
    assert (n <> 10) by (intros ->; apply M; reflexivity).
    destruct (Z.ltb_spec 10 n) as [L|L]; [|lia].
    split; [discriminate|].
    intros E. exfalso. exact (one_decimal_is_long _ _ E).
Qed.

(** The months bucket. *)
Lemma months_label (y : Q) :
  ((1 # 12) <= y)%Q ->
  fst (Calculator.show_months (Fin y)) <> "0"%string /\
  (is_singular (snd (Calculator.show_months (Fin y))) = true <->
   fst (Calculator.show_months (Fin y)) = "1"%string).
Proof.
  intros Hy. rewrite show_months_Fin. cbv zeta.
  set (months := round_half_up (y * 12)).
  assert (1 <= months) as Hm by (apply rounded_at_least_1; lra).
  destruct (12 <=? months).
  - cbn [fst snd]. split; [discriminate|]. split; reflexivity.
  - cbn [fst snd].
    destruct (counted_label months "MONTH" "MONTHS" ltac:(lia)
                eq_refl eq_refl) as [Z0 A].
    split; [rewrite Z0; lia|exact A].
Qed.

(** The day rendering of calculator.js. *)
Lemma days_label (y : Q) :
  (0 <= y)%Q ->
  fst (Calculator.show_days (Fin y)) <> "0"%string /\
  (((1 # 730) <= y)%Q ->
   (is_singular (snd (Calculator.show_days (Fin y))) = true <->
    fst (Calculator.show_days (Fin y)) = "1"%string)) /\
  ((y < 1 # 730)%Q ->
   Calculator.show_days (Fin y) = ("1", "DAYS")%string).
Proof.
  intros Hy. rewrite show_days_Fin. cbv zeta.
  set (days := round_half_up (y * 365)).
  assert (0 <= days) as Hd by (apply round_half_up_nonneg; lra).
  cbn [fst snd]. split; [|split].
  - destruct (counted_label (Z.max 1 days) "DAY" "DAYS" ltac:(lia)
                eq_refl eq_refl) as [Z0 _].
    rewrite Z0. lia.
  - intros L.
    assert (1 <= days) as H1 by (apply rounded_at_least_1; lra).
    rewrite Z.max_r by exact H1.
    exact (proj2 (counted_label days "DAY" "DAYS" Hd eq_refl eq_refl)).
  - intros L.
    assert (days = 0) as -> by (apply rounded_is_0; lra).
    vm_compute. reflexivity.
Qed.

(** X14.  The number shown for a valid break-even time between 0 and 10
    years and its label.  In calculator.js the number is never 0, and
    from half a day on (1/730 year) the label is singular exactly when
    the number shown is 1; below half a day it shows 1 DAYS.  In the
    second file the label is singular exactly when the number shown is
    1, and the number is 0 (0 WEEKS) exactly below half a week (1/104
    year). *)
Theorem number_shown_and_label_agree :
  forall (src : SourceFile) (y : Q) (s d : option number),
    (0 <= y)%Q -> (y <= 10)%Q ->
    let text := fst (displayROI_in src (mkROI (Fin y) true s d)) in
    let unit := snd (displayROI_in src (mkROI (Fin y) true s d)) in
    match src with
    | calculator_js =>
        text <> "0"%string /\
        (((1 # 730) <= y)%Q ->
         (is_singular unit = true <-> text = "1"%string)) /\
        ((y < 1 # 730)%Q -> (text, unit) = ("1", "DAYS")%string)
    | second_file =>
        (text = "0"%string <-> (y < 1 # 104)%Q) /\
        (is_singular unit = true <-> text = "1"%string)
    end.
Proof.
  intros src y s d Hlo Hhi.
  assert (y < 999)%Q as H999 by lra.
  destruct src; cbn [displayROI_in].
  - rewrite (Calculator_displayROI_valid y s d H999).
    rewrite (Qle_bool_true y 10 Hhi). cbn [negb].
    destruct (Qle_bool (1 # 52) y) eqn:B1; cbn [negb].
    2:{ destruct (days_label y Hlo) as (D0 & D1 & D2).
        refine (conj D0 (conj D1 _)).
        intros L. rewrite <- surjective_pairing. exact (D2 L). }
    apply Qle_bool_iff in B1.
    assert (~ (y < 1 # 730)%Q) as Hnot by (intros L; lra).
    assert (forall p : string * string,
               fst p <> "0"%string /\
               (is_singular (snd p) = true <-> fst p = "1"%string) ->
               fst p <> "0"%string /\
               (((1 # 730) <= y)%Q ->
                (is_singular (snd p) = true <-> fst p = "1"%string)) /\
               ((y < 1 # 730)%Q -> (fst p, snd p) = ("1", "DAYS")%string))
      as Hwrap.
    { intros p [A B]. refine (conj A (conj (fun _ => B) _)).
      intros L. contradiction. }
    destruct (Qle_bool (1 # 12) y) eqn:B2; cbn [negb].
    2:{ apply Hwrap. rewrite Calculator_show_weeks_Fin. cbv zeta.
        set (weeks := round_half_up (y * 52)).
        set (months := round_half_up (y * 12)).
        assert (0 <= weeks) as Hw by (apply round_half_up_nonneg; lra).
        destruct (Z.leb_spec 4 weeks) as [W4|W4].
        - assert (1 <= months) as Hm.
          { apply rounded_at_least_1.
            destruct (round_half_up_bounds (y * 52)) as [_ Hup].
            fold weeks in Hup.
            assert (4 <= inject_Z weeks)%Q
              by (change 4%Q with (inject_Z 4); rewrite <- Zle_Qle; lia).
            lra. }
          cbn [fst snd].
          destruct (counted_label months "MONTH" "MONTHS" ltac:(lia)
                      eq_refl eq_refl) as [Z0 A].
          split; [rewrite Z0; lia|exact A].
        - destruct (Z.ltb_spec weeks 1) as [W1|W1].
          + destruct (days_label y Hlo) as (D0 & D1 & _).
            split; [exact D0|]. apply D1. lra.
          + cbn [fst snd].
            destruct (counted_label weeks "WEEK" "WEEKS" Hw
                        eq_refl eq_refl) as [Z0 A].
            split; [rewrite Z0; lia|exact A]. }
    apply Qle_bool_iff in B2.
    destruct (Qle_bool 1 y) eqn:B3; cbn [negb].
    + apply Qle_bool_iff in B3. apply Hwrap. apply years_label. exact B3.
    + apply Hwrap. apply months_label. exact B2.
  - rewrite (Variant_displayROI_valid y s d H999).
    rewrite (Qle_bool_true y 10 Hhi). cbn [negb].
    assert (forall p : string * string,
               ((1 # 104) <= y)%Q ->
               fst p <> "0"%string /\
               (is_singular (snd p) = true <-> fst p = "1"%string) ->
               (fst p = "0"%string <-> (y < 1 # 104)%Q) /\
               (is_singular (snd p) = true <-> fst p = "1"%string))
      as Hwrap.
    { intros p L [A B]. split; [|exact B].
      split; [intros E; contradiction|intros L'; lra]. }
    destruct (Qle_bool (1 # 12) y) eqn:B2; cbn [negb].
    2:{ rewrite Variant_show_weeks_Fin. cbv zeta.
        set (weeks := round_half_up (y * 52)).
        set (months := round_half_up (y * 12)).
        assert (0 <= weeks) as Hw by (apply round_half_up_nonneg; lra).
        destruct (Z.leb_spec 4 weeks) as [W4|W4].
        - destruct (round_half_up_bounds (y * 52)) as [_ Hup].
          fold weeks in Hup.
          assert (4 <= inject_Z weeks)%Q
            by (change 4%Q with (inject_Z 4); rewrite <- Zle_Qle; lia).
          assert (1 <= months) as Hm by (apply rounded_at_least_1; lra).
          apply Hwrap; [lra|]. cbn [fst snd].
          destruct (counted_label months "MONTH" "MONTHS" ltac:(lia)
                      eq_refl eq_refl) as [Z0 A].
          split; [rewrite Z0; lia|exact A].
        - cbn [fst snd].
          destruct (counted_label weeks "WEEK" "WEEKS" Hw
                      eq_refl eq_refl) as [Z0 A].
          split; [|exact A]. rewrite Z0. subst weeks.
          rewrite rounded_is_0 by lra. split; intros; lra. }
    apply Qle_bool_iff in B2.
    destruct (Qle_bool 1 y) eqn:B3; cbn [negb].
    + apply Qle_bool_iff in B3. apply Hwrap; [lra|].
      apply years_label. exact B3.
    + apply Hwrap; [lra|]. apply months_label. exact B2.
Qed.

Lemma number_shown_and_label_agree_witness :
  fst (Variant.displayROI (mkROI (Fin (1 # 200)) true None None))
  = "0"%string.
Proof.
  apply (proj1 (number_shown_and_label_agree second_file (1 # 200) None None
                  ltac:(unfold Qle; simpl; lia)
                  ltac:(unfold Qle; simpl; lia))).
  reflexivity.
Defined.



(* ================================================================== *)
(** ** Further properties: the pages over any sequence of listener runs *)
(* ================================================================== *)













